(** * kysely-otel: OpenTelemetry instrumentation for the Kysely query builder

    A shallow embedding of [mod.ts]: the query summarizer
    ([summarizeQuery], [getTableNames], [getTableName]) and the two
    wrappers that [setupInstrumentation] installs over
    [TransactionBuilder.prototype.execute] and
    [DefaultQueryExecutor.prototype.executeQuery].

    JavaScript values are modelled as far as the code inspects them: a
    thrown value is of type [unknown], so the catch blocks are embedded
    over the whole value domain ([typeof], [in], property read,
    [Error.isError], [String]).  Promises are modelled by their
    settlement: an awaited operation either completes normally with a
    value or abruptly with a thrown value; operations that never settle
    are outside the model. *)

From Stdlib Require Import String List Bool Arith Lia.
Import ListNotations.
Local Open Scope string_scope.
Set Warnings "-register-all".

(** ** Completions *)

(** The outcome of evaluating a piece of JavaScript: a value, or a
    thrown value. *)
Inductive completion (E A : Type) : Type :=
| Normal (a : A)
| Abrupt (e : E).
Arguments Normal {E A} a.
Arguments Abrupt {E A} e.

(** ** JavaScript values *)

(** What probing a property of an object does.  A property that yields
    a value is [Data], be it a data property or an accessor whose
    getter returns (a getter is taken to return the same value at every
    read).  [ThrowingGetter e] is a property that is present but whose
    read throws [e] (a getter that throws, the [get] trap of a proxy).
    [ThrowingHas e] is a key for which already the [in] test throws [e]
    (the [has] trap of a proxy). *)
Inductive property (V : Type) : Type :=
| Data (value : V)
| ThrowingGetter (e : V)
| ThrowingHas (e : V).
Arguments Data {V} value.
Arguments ThrowingGetter {V} e.
Arguments ThrowingHas {V} e.

(** Numeric primitives are carried by their canonical decimal rendering
    (what [String] returns on them), which is all the code observes.
    An object has an identity [oid], the internal slot [[ErrorData]]
    that [Error.isError] tests, the [callable] flag that makes [typeof]
    answer ["function"], its properties (own and inherited, first match
    wins), and the completion of its conversion to a string:
    [String(o)] runs the object's own [toString], which may throw, and
    throws a [TypeError] on an object without one. *)
Inductive JsValue : Type :=
| JsUndefined
| JsNull
| JsBoolean (b : bool)
| JsNumber (repr : string)
| JsBigInt (repr : string)
| JsString (s : string)
| JsSymbol (description : option string)
| JsObject (oid : nat) (errorData : bool) (callable : bool)
           (props : list (string * property JsValue))
           (toStringResult : completion JsValue string).

Definition Completion (A : Type) : Type := completion JsValue A.

Definition JsProperty : Type := property JsValue.

Fixpoint property_of (key : string) (props : list (string * JsProperty))
  : option JsProperty :=
  match props with
  | [] => None
  | (k, p) :: rest => if k =? key then Some p else property_of key rest
  end.

(** The value of the property [key], when it is present and yields
    one. *)
Definition lookup (key : string) (props : list (string * JsProperty))
  : option JsValue :=
  match property_of key props with
  | Some (Data v) => Some v
  | _ => None
  end.

(** [typeof v] *)
Definition js_typeof (v : JsValue) : string :=
  match v with
  | JsUndefined => "undefined"
  | JsNull => "object"
  | JsBoolean _ => "boolean"
  | JsNumber _ => "number"
  | JsBigInt _ => "bigint"
  | JsString _ => "string"
  | JsSymbol _ => "symbol"
  | JsObject _ _ callable _ _ => if callable then "function" else "object"
  end.

(** [v !== null] *)
Definition js_not_null (v : JsValue) : bool :=
  match v with
  | JsNull => false
  | _ => true
  end.

(** The [TypeError] of [key in v] on a value that is not an object. *)
Definition TypeError_in (key : string) : JsValue :=
  let message :=
    "Cannot use 'in' operator to search for '" ++ key ++ "'" in
  JsObject 0 true false
    [("name", Data (JsString "TypeError"));
     ("message", Data (JsString message))]
    (Normal ("TypeError: " ++ message)).

(** [key in v]: on an object the test can throw (the [has] trap of a
    proxy); on a primitive it throws a [TypeError] (the code only
    evaluates it behind the [typeof] and null tests). *)
Definition js_in (key : string) (v : JsValue) : Completion bool :=
  match v with
  | JsObject _ _ _ props _ =>
      match property_of key props with
      | Some (ThrowingHas e) => Abrupt e
      | Some _ => Normal true
      | None => Normal false
      end
  | _ => Abrupt (TypeError_in key)
  end.

(** [v.key], for a value that is neither [null] nor [undefined]: the
    read can throw (a getter, the [get] trap of a proxy); a primitive
    has no property [key] of its own. *)
Definition js_get (v : JsValue) (key : string) : Completion JsValue :=
  match v with
  | JsObject _ _ _ props _ =>
      match property_of key props with
      | Some (Data x) => Normal x
      | Some (ThrowingGetter e) | Some (ThrowingHas e) => Abrupt e
      | None => Normal JsUndefined
      end
  | _ => Normal JsUndefined
  end.

(** [Error.isError(v)] *)
Definition Error_isError (v : JsValue) : bool :=
  match v with
  | JsObject _ errorData _ _ _ => errorData
  | _ => false
  end.

(** [String(v)] *)
Definition js_String (v : JsValue) : Completion string :=
  match v with
  | JsUndefined => Normal "undefined"
  | JsNull => Normal "null"
  | JsBoolean b => Normal (if b then "true" else "false")
  | JsNumber repr => Normal repr
  | JsBigInt repr => Normal repr
  | JsString s => Normal s
  | JsSymbol None => Normal "Symbol()"
  | JsSymbol (Some d) => Normal ("Symbol(" ++ d ++ ")")
  | JsObject _ _ _ _ toStringResult => toStringResult
  end.

(** [Boolean(s)] on a string, the predicate of [.filter(Boolean)]. *)
Definition js_Boolean (s : string) : bool :=
  negb (s =? "").

(** The [TypeError] the engine throws on reading property [key] of
    [undefined]. *)
Definition TypeError_undefined (key : string) : JsValue :=
  let message :=
    "Cannot read properties of undefined (reading '" ++ key ++ "')" in
  JsObject 0 true false
    [("name", Data (JsString "TypeError"));
     ("message", Data (JsString message))]
    (Normal ("TypeError: " ++ message)).

(** ** Operation nodes of the query builder *)

(** Modelled from the spec: the declarations of the query builder's
    operation nodes are not part of the sources.  The records below
    have the fields that [mod.ts] reads, with the optionality its
    guards imply. *)
Module IdentifierNode.
Record t : Type := mk { name : string }.
End IdentifierNode.

Module SchemableIdentifierNode.
Record t : Type := mk {
  schema : option IdentifierNode.t;
  identifier : IdentifierNode.t
}.
End SchemableIdentifierNode.

Module TableNode.
Record t : Type := mk { table : SchemableIdentifierNode.t }.
End TableNode.

(** The nodes that occur as sources, targets and joins.  Only
    [OpTableNode] carries the kind tag ["TableNode"] that [TableNode.is]
    tests. *)
Inductive OperationNode : Type :=
| OpTableNode (t : TableNode.t)
| OpAliasNode (node : OperationNode) (alias : string)
| OpJoinNode (joinType : string) (table : OperationNode)
| OpRawNode (sqlFragments : list string).

(** Modelled from the spec: [TableNode.is(node)], the query builder's
    test for a plain table reference. *)
Definition TableNode_is (node : OperationNode) : bool :=
  match node with
  | OpTableNode _ => true
  | _ => false
  end.

Module FromNode.
Record t : Type := mk { froms : list OperationNode }.
End FromNode.

(** Modelled from the spec: a root node as the summarizer sees it at
    run time, the [kind] tag and the fields the code reads, each of
    which may be missing on the object.  The view [name] of a
    refresh-materialized-view node is the node of a qualified
    identifier that the query builder stores there, and [concurrently]
    a boolean. *)
Module RootOperationNode.
Record t : Type := mk {
  kind : string;
  from : option FromNode.t;
  joins : option (list OperationNode);
  into : option TableNode.t;
  table : option OperationNode;
  name : option SchemableIdentifierNode.t;
  concurrently : option bool
}.
End RootOperationNode.

Module CompiledQuery.
Record t : Type := mk {
  query : RootOperationNode.t;
  sql : string
}.
End CompiledQuery.

(** The query builder declares [from] as a required field of a delete
    node (the code reads [query.from.froms] unguarded, where the select
    case tests [query.from] first): a root node is well typed when a
    node of kind ["DeleteQueryNode"] has its [from]. *)
Definition well_typed (query : RootOperationNode.t) : bool :=
  if RootOperationNode.kind query =? "DeleteQueryNode"
  then match RootOperationNode.from query with
       | Some _ => true
       | None => false
       end
  else true.

(** ** The query summarizer *)

(** What a template literal makes of an operation node: the node is a
    plain object without a [toString] of its own, and the inherited
    [Object.prototype.toString] renders it as ["[object Object]"]. *)
Definition template_of_node (node : SchemableIdentifierNode.t) : string :=
  "[object Object]".

Definition getTableName (node : TableNode.t) : string :=
  let table := TableNode.table node in
  match SchemableIdentifierNode.schema table with
  | Some schema =>
      IdentifierNode.name schema ++ "."
      ++ IdentifierNode.name (SchemableIdentifierNode.identifier table)
  | None => IdentifierNode.name (SchemableIdentifierNode.identifier table)
  end.

(** The [match] is the type guard [TableNode.is(f) ? getTableName(f) : ""]. *)
Definition getTableNames (froms : list OperationNode) : list string :=
  filter js_Boolean
    (map (fun f => match f with
                   | OpTableNode t => getTableName t
                   | _ => ""
                   end) froms).

(** [arr.join(sep)] on an array of strings. *)
Definition join (sep : string) (arr : list string) : string :=
  String.concat sep arr.

(** The statement
    [if (query.joins && query.joins.length > 0) summary += ` JOIN ...`]
    that closes the select, update and delete cases. *)
Definition append_joins (summary : string)
    (joins : option (list OperationNode)) : string :=
  match joins with
  | Some (j :: js) => summary ++ " JOIN " ++ join ", " (getTableNames (j :: js))
  | _ => summary
  end.

(** The eleven consecutive [case] labels that share the body
    [summary = "DDL Operation"]. *)
Definition ddl_kinds : list string :=
  [ "CreateTableNode"; "AlterTableNode"; "DropTableNode";
    "CreateIndexNode"; "DropIndexNode";
    "CreateSchemaNode"; "DropSchemaNode";
    "CreateTypeNode"; "DropTypeNode";
    "CreateViewNode"; "DropViewNode" ].

Definition summarizeQuery (cq : CompiledQuery.t) : Completion string :=
  let query := CompiledQuery.query cq in
  let kind := RootOperationNode.kind query in
  if kind =? "SelectQueryNode" then
    let summary :=
      match RootOperationNode.from query with
      | Some from =>
          match FromNode.froms from with
          | _ :: _ =>
              "SELECT FROM " ++ join ", " (getTableNames (FromNode.froms from))
          | [] => "SELECT"
          end
      | None => "SELECT"
      end in
    Normal (append_joins summary (RootOperationNode.joins query))
  else if kind =? "InsertQueryNode" then
    match RootOperationNode.into query with
    | Some into => Normal ("INSERT INTO " ++ getTableName into)
    | None => Normal "INSERT"
    end
  else if kind =? "UpdateQueryNode" then
    let summary :=
      match RootOperationNode.table query with
      | Some (OpTableNode t) => "UPDATE " ++ getTableName t
      | _ => "UPDATE"
      end in
    Normal (append_joins summary (RootOperationNode.joins query))
  else if kind =? "DeleteQueryNode" then
    match RootOperationNode.from query with
    | Some from =>
        let summary :=
          "DELETE FROM " ++ join ", " (getTableNames (FromNode.froms from)) in
        Normal (append_joins summary (RootOperationNode.joins query))
    | None => Abrupt (TypeError_undefined "froms")
    end
  else if existsb (String.eqb kind) ddl_kinds then
    Normal "DDL Operation"
  else if kind =? "MergeQueryNode" then
    Normal "MERGE"
  else if kind =? "RefreshMaterializedViewNode" then
    let summary := "REFRESH MATERIALIZED VIEW" in
    let summary :=
      match RootOperationNode.name query with
      | Some name => summary ++ " " ++ template_of_node name
      | None => summary
      end in
    let summary :=
      match RootOperationNode.concurrently query with
      | Some true => summary ++ " CONCURRENTLY"
      | _ => summary
      end in
    Normal summary
  else
    Normal "RAW SQL".

(** ** Tracing: spans as a log of events *)

Inductive SpanKind : Type :=
| INTERNAL | SERVER | CLIENT | PRODUCER | CONSUMER.

Inductive SpanStatusCode : Type :=
| UNSET | OK | ERROR.

Inductive AttributeValue : Type :=
| AttrString (s : string)
| AttrNumber (n : nat).

Record SpanOptions : Type := mkSpanOptions {
  kind : SpanKind;
  attributes : list (string * AttributeValue)
}.

Record SpanStatus : Type := mkSpanStatus {
  code : SpanStatusCode;
  message : string
}.

(** What the tracing provider observes, in order.  A span is named by
    the number it received when it was started. *)
Inductive SpanEvent : Type :=
| EvStart (span : nat) (name : string) (options : SpanOptions)
| EvSetAttribute (span : nat) (key : string) (value : AttributeValue)
| EvRecordException (span : nat) (exception : JsValue)
| EvSetStatus (span : nat) (status : SpanStatus)
| EvEnd (span : nat).

(** ** Effectful computations *)

(** An awaited computation, run from the number of the next span to be
    started: its completion, the span events it caused, in order, and
    the number of the next span afterwards. *)
Record Outcome (A : Type) : Type := mkOutcome {
  result : Completion A;
  events : list SpanEvent;
  next : nat
}.
Arguments mkOutcome {A} result events next.
Arguments result {A} o.
Arguments events {A} o.
Arguments next {A} o.

Definition M (A : Type) : Type := nat -> Outcome A.

Definition ret {A : Type} (a : A) : M A :=
  fun n => mkOutcome (Normal a) [] n.

Definition throw {A : Type} (e : JsValue) : M A :=
  fun n => mkOutcome (Abrupt e) [] n.

Definition bind {A B : Type} (m : M A) (f : A -> M B) : M B :=
  fun n =>
    let o := m n in
    match result o with
    | Normal a =>
        let o' := f a (next o) in
        mkOutcome (result o') (events o ++ events o')%list (next o')
    | Abrupt e => mkOutcome (Abrupt e) (events o) (next o)
    end.

(** Evaluation of a pure expression that may throw. *)
Definition eval {A : Type} (c : Completion A) : M A :=
  fun n => mkOutcome c [] n.

Definition emit (e : SpanEvent) : M unit :=
  fun n => mkOutcome (Normal tt) [e] n.

Notation "x <- m ;; k" := (bind m (fun x => k))
  (at level 61, m at next level, right associativity).
Notation "m ;; k" := (bind m (fun _ => k))
  (at level 61, right associativity).

(** [when c m] is the statement [if (c) m]. *)
Definition when (c : bool) (m : M unit) : M unit :=
  if c then m else ret tt.

(** [try { body } catch (err) { handler err } finally { finalizer }]:
    the handler runs when the body throws; the finalizer runs after
    either, whatever their completion, and its own abrupt completion
    would replace theirs. *)
Definition try_catch_finally {A : Type}
    (body : M A) (handler : JsValue -> M A) (finalizer : M unit) : M A :=
  fun n =>
    let o1 := body n in
    let o2 :=
      match result o1 with
      | Normal _ => o1
      | Abrupt err =>
          let h := handler err (next o1) in
          mkOutcome (result h) (events o1 ++ events h)%list (next h)
      end in
    let o3 := finalizer (next o2) in
    mkOutcome
      (match result o3 with
       | Normal _ => result o2
       | Abrupt e => Abrupt e
       end)
      (events o2 ++ events o3)%list
      (next o3).

(** ** The tracer interface *)

Record Span : Type := mkSpan {
  setAttribute : string -> AttributeValue -> M unit;
  recordException : JsValue -> M unit;
  setStatus : SpanStatus -> M unit;
  span_end : M unit
}.

Record Tracer : Type := mkTracer {
  startActiveSpan :
    forall A : Type, string -> SpanOptions -> (Span -> M A) -> M A
}.
Arguments startActiveSpan t {A} name options fn.

(** Modelled from the spec: the tracing provider is not part of the
    sources.  A tracer starts a span with the given name, kind and
    initial attributes, runs the body with the handle of that span and
    returns what the body returns; the handle's operations reach the
    provider and do not throw. *)
Definition otel_span (id : nat) : Span :=
  {| setAttribute := fun key value => emit (EvSetAttribute id key value);
     recordException := fun exception => emit (EvRecordException id exception);
     setStatus := fun status => emit (EvSetStatus id status);
     span_end := emit (EvEnd id) |}.

(** Modelled from the spec: [startActiveSpan] of the tracing provider
    (see [otel_span]). *)
Definition otel_tracer : Tracer :=
  {| startActiveSpan := fun A name options fn n =>
       let o := fn (otel_span n) (S n) in
       mkOutcome (result o) (EvStart n name options :: events o) (next o) |}.

(** ** The instrumented entry points *)

(** [execute(cb)]: the callback receives the transaction and returns a
    promise. *)
Definition Callback : Type := JsValue -> M JsValue.

Module QueryId.
Record t : Type := mk { queryId : string }.
End QueryId.

(** The result of a query: an object (with its identity [ref]) holding
    the returned rows. *)
Module QueryResult.
Record t : Type := mk {
  ref : nat;
  rows : list JsValue
}.
End QueryResult.

(** The two methods, with their receiver [this] as first argument. *)
Definition ExecuteFn : Type := JsValue -> Callback -> M JsValue.
Definition ExecuteQueryFn : Type :=
  JsValue -> CompiledQuery.t -> QueryId.t -> M QueryResult.t.

(** The two patched slots, [TransactionBuilder.prototype.execute] and
    [DefaultQueryExecutor.prototype.executeQuery]. *)
Record Prototypes : Type := mkPrototypes {
  TransactionBuilder_execute : ExecuteFn;
  DefaultQueryExecutor_executeQuery : ExecuteQueryFn
}.

(** The condition
    [typeof err === "object" && err !== null && "code" in err &&
     typeof err.code === "string"], evaluated from left to right: the
    [in] test and the read of [err.code] run only behind the tests
    before them, and either can throw. *)
Definition has_string_code (err : JsValue) : Completion bool :=
  if (js_typeof err =? "object") && js_not_null err then
    match js_in "code" err with
    | Abrupt e => Abrupt e
    | Normal false => Normal false
    | Normal true =>
        match js_get err "code" with
        | Abrupt e => Abrupt e
        | Normal code => Normal (js_typeof code =? "string")
        end
    end
  else Normal false.

(** A value that the condition above has narrowed to a string. *)
Definition narrowed_string (v : JsValue) : string :=
  match v with
  | JsString c => c
  | _ => ""
  end.

(** The statements of the catch block, the same in both wrappers.  The
    argument [err.code] of [setAttribute] is a second read of the
    property. *)
Definition catch_block {A : Type} (span : Span) (err : JsValue) : M A :=
  has_code <- eval (has_string_code err) ;;
  when has_code
    (code <- eval (js_get err "code") ;;
     setAttribute span "db.response.status_code"
       (AttrString (narrowed_string code))) ;;
  when (Error_isError err) (recordException span err) ;;
  message <- eval (js_String err) ;;
  setStatus span {| code := ERROR; message := message |} ;;
  throw err.

(** The function installed over [TransactionBuilder.prototype.execute],
    closed over the method it replaces. *)
Definition execute_wrapper (tracer : Tracer)
    (transactionBuilderExecute : ExecuteFn) : ExecuteFn :=
  fun this cb =>
    let spanOptions :=
      {| kind := INTERNAL;
         attributes := [("db.system.name", AttrString "postgres")] |} in
    startActiveSpan tracer "TRANSACTION" spanOptions (fun span =>
      try_catch_finally
        (res <- transactionBuilderExecute this cb ;;
         ret res)
        (fun err => catch_block span err)
        (span_end span)).

(** The function installed over
    [DefaultQueryExecutor.prototype.executeQuery].  The arguments of
    [startActiveSpan] are evaluated before the call, so a summarizer
    that throws does so before any span is started. *)
Definition executeQuery_wrapper (tracer : Tracer)
    (defaultQueryExecutorExecuteQuery : ExecuteQueryFn) : ExecuteQueryFn :=
  fun this query id =>
    let spanOptions :=
      {| kind := INTERNAL;
         attributes := [("db.system.name", AttrString "postgres");
                        ("db.query.text", AttrString (CompiledQuery.sql query))] |} in
    name <- eval (summarizeQuery query) ;;
    startActiveSpan tracer name spanOptions (fun span =>
      try_catch_finally
        (res <- defaultQueryExecutorExecuteQuery this query id ;;
         setAttribute span "db.response.returned_rows"
           (AttrNumber (length (QueryResult.rows res))) ;;
         ret res)
        (fun err => catch_block span err)
        (span_end span)).

Definition setupInstrumentation (tracer : Tracer) (lib : Prototypes)
  : Prototypes :=
  let transactionBuilderExecute := TransactionBuilder_execute lib in
  let defaultQueryExecutorExecuteQuery :=
    DefaultQueryExecutor_executeQuery lib in
  {| TransactionBuilder_execute :=
       execute_wrapper tracer transactionBuilderExecute;
     DefaultQueryExecutor_executeQuery :=
       executeQuery_wrapper tracer defaultQueryExecutorExecuteQuery |}.

(** ** Vocabulary of the specification *)

(** The string-typed [code] field carried by a thrown object. *)
Definition code_field (err : JsValue) : option string :=
  match err with
  | JsObject _ _ false props _ =>
      match lookup "code" props with
      | Some (JsString c) => Some c
      | _ => None
      end
  | _ => None
  end.

Definition status_code_events (span : nat) (err : JsValue) : list SpanEvent :=
  match code_field err with
  | Some c => [EvSetAttribute span "db.response.status_code" (AttrString c)]
  | None => []
  end.

Definition exception_events (span : nat) (err : JsValue) : list SpanEvent :=
  if Error_isError err then [EvRecordException span err] else [].

Definition error_status (msg : string) : SpanStatus :=
  {| code := ERROR; message := msg |}.

Definition status_events (span : nat) (err : JsValue) : list SpanEvent :=
  match js_String err with
  | Normal msg => [EvSetStatus span (error_status msg)]
  | Abrupt _ => []
  end.

(** What the probe of the [code] of a thrown value throws, if it
    throws: the [in] test or the read of the property of an object with
    [typeof] ["object"]. *)
Definition code_probe_error (err : JsValue) : option JsValue :=
  match err with
  | JsObject _ _ false props _ =>
      match property_of "code" props with
      | Some (ThrowingGetter e) | Some (ThrowingHas e) => Some e
      | _ => None
      end
  | _ => None
  end.

(** The catch block inspects the thrown value without a further throw:
    the probe of its [code] completes. *)
Definition inspected (err : JsValue) : Prop :=
  code_probe_error err = None.

(** What the catch block tells the span about a thrown value: nothing
    when the probe of the code throws. *)
Definition failure_events (span : nat) (err : JsValue) : list SpanEvent :=
  match code_probe_error err with
  | Some _ => []
  | None =>
      (status_code_events span err ++ exception_events span err
       ++ status_events span err)%list
  end.

(** What the catch block throws in turn. *)
Definition rethrown {A : Type} (err : JsValue) : Completion A :=
  match code_probe_error err with
  | Some e => Abrupt e
  | None =>
      match js_String err with
      | Normal _ => Abrupt err
      | Abrupt e => Abrupt e
      end
  end.

Definition transaction_options : SpanOptions :=
  {| kind := INTERNAL;
     attributes := [("db.system.name", AttrString "postgres")] |}.

Definition query_options (sql : string) : SpanOptions :=
  {| kind := INTERNAL;
     attributes := [("db.system.name", AttrString "postgres");
                    ("db.query.text", AttrString sql)] |}.

Definition is_start (e : SpanEvent) : bool :=
  match e with EvStart _ _ _ => true | _ => false end.

Definition is_end (e : SpanEvent) : bool :=
  match e with EvEnd _ => true | _ => false end.

Definition is_set_status (e : SpanEvent) : bool :=
  match e with EvSetStatus _ _ => true | _ => false end.

(** An event by which span [id] is annotated: an attribute, a recorded
    exception or a status. *)
Definition annotates (id : nat) (e : SpanEvent) : bool :=
  match e with
  | EvSetAttribute s _ _ | EvRecordException s _ | EvSetStatus s _ => s =? id
  | _ => false
  end%nat.

Definition started (evs : list SpanEvent) : nat :=
  length (filter is_start evs).

Definition ended (evs : list SpanEvent) : nat :=
  length (filter is_end evs).

(** ** Running the wrappers *)

(** The condition of the catch block, by cases on the thrown value: it
    throws what the probe throws, and otherwise holds exactly of an
    object that carries a string [code], which the second read of
    [err.code] then yields. *)
Lemma has_string_code_cases (err : JsValue) :
  match code_probe_error err with
  | Some e => has_string_code err = Abrupt e
  | None =>
      match code_field err with
      | Some c =>
          has_string_code err = Normal true
          /\ js_get err "code" = Normal (JsString c)
      | None => has_string_code err = Normal false
      end
  end.
Proof.
  destruct err as [ | | b | r | r | s | d | oid ed callable props ts ];
    try reflexivity.
  unfold has_string_code, code_probe_error, code_field, lookup, js_in, js_get,
    js_typeof.
  destruct callable; simpl; [reflexivity|].
  destruct (property_of "code" props) as [[v|e|e]|]; simpl; try reflexivity.
  destruct v as [ | | b | r | r | s | d | oid' ed' callable' props' ts' ];
    try reflexivity; [split; reflexivity|].
  destruct callable'; reflexivity.
Qed.

Lemma catch_block_outcome (A : Type) (id : nat) (err : JsValue) (n : nat) :
  @catch_block A (otel_span id) err n
  = mkOutcome (rethrown err) (failure_events id err) n.
Proof.
  unfold catch_block, failure_events, status_code_events, exception_events,
    status_events, rethrown.
  pose proof (has_string_code_cases err) as H.
  unfold bind, when, eval, throw, ret, emit; simpl.
  destruct (code_probe_error err) as [e|].
  - rewrite H. reflexivity.
  - destruct (code_field err) as [c|].
    + destruct H as [-> ->]. simpl.
      destruct (Error_isError err), (js_String err) as [msg|e]; reflexivity.
    + rewrite H. simpl.
      destruct (Error_isError err), (js_String err) as [msg|e]; reflexivity.
Qed.

Lemma execute_wrapper_outcome (orig : ExecuteFn) (this : JsValue)
    (cb : Callback) (n : nat) :
  execute_wrapper otel_tracer orig this cb n
  = let o := orig this cb (S n) in
    mkOutcome
      (match result o with
       | Normal res => Normal res
       | Abrupt err => rethrown err
       end)
      (EvStart n "TRANSACTION" transaction_options
       :: events o
       ++ match result o with
          | Normal _ => []
          | Abrupt err => failure_events n err
          end
       ++ [EvEnd n])%list
      (next o).
Proof.
  unfold execute_wrapper, try_catch_finally, bind, ret; simpl.
  destruct (orig this cb (S n)) as [r evs nx]; simpl.
  destruct r as [res|err]; simpl.
  - rewrite app_nil_r. reflexivity.
  - rewrite catch_block_outcome; simpl.
    rewrite <- app_assoc. reflexivity.
Qed.

Lemma executeQuery_wrapper_outcome (orig : ExecuteQueryFn) (this : JsValue)
    (query : CompiledQuery.t) (id : QueryId.t) (name : string) (n : nat) :
  summarizeQuery query = Normal name ->
  executeQuery_wrapper otel_tracer orig this query id n
  = let o := orig this query id (S n) in
    mkOutcome
      (match result o with
       | Normal res => Normal res
       | Abrupt err => rethrown err
       end)
      (EvStart n name (query_options (CompiledQuery.sql query))
       :: events o
       ++ match result o with
          | Normal res =>
              [EvSetAttribute n "db.response.returned_rows"
                 (AttrNumber (length (QueryResult.rows res)))]
          | Abrupt err => failure_events n err
          end
       ++ [EvEnd n])%list
      (next o).
Proof.
  intros Hname.
  unfold executeQuery_wrapper, try_catch_finally, bind, ret, eval, emit; simpl.
  rewrite Hname; simpl.
  destruct (orig this query id (S n)) as [r evs nx]; simpl.
  destruct r as [res|err]; simpl.
  - rewrite <- app_assoc. reflexivity.
  - rewrite catch_block_outcome; simpl.
    rewrite <- app_assoc. reflexivity.
Qed.

(** A summarizer that throws does so before the span is started: the
    wrapper throws the same value, the wrapped operation does not run
    and nothing is traced. *)
Lemma executeQuery_wrapper_summarizer_throws (orig : ExecuteQueryFn)
    (this : JsValue) (query : CompiledQuery.t) (id : QueryId.t)
    (e : JsValue) (n : nat) :
  summarizeQuery query = Abrupt e ->
  executeQuery_wrapper otel_tracer orig this query id n
  = mkOutcome (Abrupt e) [] n.
Proof.
  intros He.
  unfold executeQuery_wrapper, bind, eval; simpl.
  rewrite He. reflexivity.
Qed.

(** ** The summarization table of the specification *)

Module Spec.

(** A qualified reference renders as ["<schema>.<table>"] when a
    schema is present, else ["<table>"]. *)
Definition qualified_name (ref : SchemableIdentifierNode.t) : string :=
  let table :=
    IdentifierNode.name (SchemableIdentifierNode.identifier ref) in
  match SchemableIdentifierNode.schema ref with
  | Some schema => IdentifierNode.name schema ++ "." ++ table
  | None => table
  end.

Definition table_name (node : TableNode.t) : string :=
  qualified_name (TableNode.table node).

(** Each node maps to its name if it is a plain table reference,
    otherwise to the empty string. *)
Definition node_name (node : OperationNode) : string :=
  if TableNode_is node
  then match node with
       | OpTableNode t => table_name t
       | _ => ""
       end
  else "".

Fixpoint drop_empty (names : list string) : list string :=
  match names with
  | [] => []
  | "" :: rest => drop_empty rest
  | name :: rest => name :: drop_empty rest
  end.

Fixpoint comma_separated (names : list string) : string :=
  match names with
  | [] => ""
  | [name] => name
  | name :: rest => name ++ ", " ++ comma_separated rest
  end.

(** ["<t1>, <t2>, ..."] *)
Definition table_list (nodes : list OperationNode) : string :=
  comma_separated (drop_empty (map node_name nodes)).

(** [" JOIN <j1>, <j2>, ..."] when joins are present. *)
Definition join_suffix (joins : option (list OperationNode)) : string :=
  match joins with
  | None | Some [] => ""
  | Some js => " JOIN " ++ table_list js
  end.

(** The source tables of a select or delete node. *)
Definition source_tables (from : option FromNode.t) : list OperationNode :=
  match from with
  | Some f => FromNode.froms f
  | None => []
  end.

(** [" <name>"] when a name is present, for a given rendering of the
    name. *)
Definition name_suffix (render : SchemableIdentifierNode.t -> string)
    (name : option SchemableIdentifierNode.t) : string :=
  match name with
  | Some n => " " ++ render n
  | None => ""
  end.

(** [" CONCURRENTLY"] when the concurrent flag is set. *)
Definition concurrently_suffix (flag : option bool) : string :=
  match flag with
  | Some true => " CONCURRENTLY"
  | _ => ""
  end.

Inductive NodeKind : Type :=
| Select | Insert | Update | Delete | Ddl | Merge
| RefreshMaterializedView | Anything_else.

(** The kinds of the table, by their tags; the DDL kinds are create,
    alter and drop table, create and drop index, create and drop
    schema, create and drop type, create and drop view. *)
Definition kinds : list (string * NodeKind) :=
  [ ("SelectQueryNode", Select);
    ("InsertQueryNode", Insert);
    ("UpdateQueryNode", Update);
    ("DeleteQueryNode", Delete);
    ("CreateTableNode", Ddl); ("AlterTableNode", Ddl); ("DropTableNode", Ddl);
    ("CreateIndexNode", Ddl); ("DropIndexNode", Ddl);
    ("CreateSchemaNode", Ddl); ("DropSchemaNode", Ddl);
    ("CreateTypeNode", Ddl); ("DropTypeNode", Ddl);
    ("CreateViewNode", Ddl); ("DropViewNode", Ddl);
    ("MergeQueryNode", Merge);
    ("RefreshMaterializedViewNode", RefreshMaterializedView) ].

Definition node_kind (tag : string) : NodeKind :=
  match find (fun row => tag =? fst row) kinds with
  | Some row => snd row
  | None => Anything_else
  end.

(** The name the table gives for a root node, for a given rendering of
    the name of a view. *)
Definition span_name_with (render : SchemableIdentifierNode.t -> string)
    (q : RootOperationNode.t) : string :=
  match node_kind (RootOperationNode.kind q) with
  | Select =>
      match source_tables (RootOperationNode.from q) with
      | [] => "SELECT"
      | tables => "SELECT FROM " ++ table_list tables
      end
      ++ join_suffix (RootOperationNode.joins q)
  | Insert =>
      match RootOperationNode.into q with
      | Some target => "INSERT INTO " ++ table_name target
      | None => "INSERT"
      end
  | Update =>
      match RootOperationNode.table q with
      | Some (OpTableNode target) => "UPDATE " ++ table_name target
      | _ => "UPDATE"
      end
      ++ join_suffix (RootOperationNode.joins q)
  | Delete =>
      "DELETE FROM " ++ table_list (source_tables (RootOperationNode.from q))
      ++ join_suffix (RootOperationNode.joins q)
  | Ddl => "DDL Operation"
  | Merge => "MERGE"
  | RefreshMaterializedView =>
      "REFRESH MATERIALIZED VIEW"
      ++ name_suffix render (RootOperationNode.name q)
      ++ concurrently_suffix (RootOperationNode.concurrently q)
  | Anything_else => "RAW SQL"
  end.

(** The name the table gives for a root node: the name of a view is
    rendered as the qualified reference it is. *)
Definition span_name (q : RootOperationNode.t) : string :=
  span_name_with qualified_name q.

End Spec.

(** The name the code gives: the table's, but for the name of a view,
    which the template literal renders as it renders any object. *)
Definition summary_of (q : RootOperationNode.t) : string :=
  Spec.span_name_with template_of_node q.

(** ** The summarizer against the table *)

Lemma append_empty_r (s : string) : s ++ "" = s.
Proof.
  induction s as [|c s IH]; simpl; [reflexivity | now rewrite IH].
Qed.

Lemma append_assoc (s1 s2 s3 : string) : (s1 ++ s2) ++ s3 = s1 ++ s2 ++ s3.
Proof.
  induction s1 as [|c s1 IH]; simpl; [reflexivity | now rewrite IH].
Qed.

Lemma getTableName_table_name (t : TableNode.t) :
  getTableName t = Spec.table_name t.
Proof.
  unfold getTableName, Spec.table_name, Spec.qualified_name.
  destruct (SchemableIdentifierNode.schema (TableNode.table t)); reflexivity.
Qed.

Lemma filter_drop_empty (names : list string) :
  filter js_Boolean names = Spec.drop_empty names.
Proof.
  induction names as [|name rest IH]; simpl; [reflexivity|].
  destruct name as [|c name]; simpl; [exact IH | now rewrite IH].
Qed.

Lemma join_comma_separated (names : list string) :
  join ", " names = Spec.comma_separated names.
Proof.
  unfold join.
  induction names as [|name rest IH]; simpl; [reflexivity|].
  destruct rest as [|name' rest]; [reflexivity|].
  now rewrite IH.
Qed.

Lemma getTableNames_table_list (nodes : list OperationNode) :
  join ", " (getTableNames nodes) = Spec.table_list nodes.
Proof.
  unfold getTableNames, Spec.table_list.
  rewrite filter_drop_empty, join_comma_separated.
  do 2 f_equal.
  apply map_ext. intros [t| | | ]; reflexivity.
Qed.

Lemma append_joins_join_suffix (summary : string)
    (joins : option (list OperationNode)) :
  append_joins summary joins = summary ++ Spec.join_suffix joins.
Proof.
  destruct joins as [[|j js]|]; simpl;
    try (now rewrite append_empty_r).
  now rewrite getTableNames_table_list.
Qed.

(** Case analysis on the comparison of a kind tag with a case label. *)
Ltac case_label tag :=
  match goal with
  | |- context [String.eqb ?k tag] => destruct (String.eqb k tag) eqn:?; simpl
  end.

Lemma summarizeQuery_span_name (cq : CompiledQuery.t) :
  well_typed (CompiledQuery.query cq) = true ->
  summarizeQuery cq = Normal (summary_of (CompiledQuery.query cq)).
Proof.
  destruct cq as [[k fr js into tbl nm cc] sql].
  unfold well_typed, summarizeQuery, summary_of, Spec.span_name_with,
    Spec.node_kind; simpl.
  case_label "SelectQueryNode".
  { intros _. rewrite append_joins_join_suffix.
    destruct fr as [[[|f froms]]|]; simpl; try reflexivity.
    now rewrite getTableNames_table_list. }
  case_label "InsertQueryNode".
  { intros _. destruct into as [t|]; reflexivity. }
  case_label "UpdateQueryNode".
  { intros _. rewrite append_joins_join_suffix.
    destruct tbl as [[t| | | ]|]; reflexivity. }
  case_label "DeleteQueryNode".
  { destruct fr as [[froms]|]; [intros _ | discriminate]; simpl.
    rewrite append_joins_join_suffix, getTableNames_table_list.
    reflexivity. }
  intros _.
  case_label "CreateTableNode"; [reflexivity|].
  case_label "AlterTableNode"; [reflexivity|].
  case_label "DropTableNode"; [reflexivity|].
  case_label "CreateIndexNode"; [reflexivity|].
  case_label "DropIndexNode"; [reflexivity|].
  case_label "CreateSchemaNode"; [reflexivity|].
  case_label "DropSchemaNode"; [reflexivity|].
  case_label "CreateTypeNode"; [reflexivity|].
  case_label "DropTypeNode"; [reflexivity|].
  case_label "CreateViewNode"; [reflexivity|].
  case_label "DropViewNode"; [reflexivity|].
  case_label "MergeQueryNode"; [reflexivity|].
  case_label "RefreshMaterializedViewNode"; [|reflexivity].
  destruct nm as [nm|], cc as [[|]|]; simpl;
    rewrite ?append_empty_r; reflexivity.
Qed.

(** On a delete node without [from], reading [query.from.froms]
    throws. *)
Lemma summarizeQuery_delete_without_from (q : RootOperationNode.t)
    (sql : string) :
  RootOperationNode.kind q = "DeleteQueryNode" ->
  RootOperationNode.from q = None ->
  summarizeQuery (CompiledQuery.mk q sql) = Abrupt (TypeError_undefined "froms").
Proof.
  intros Hk Hf. unfold summarizeQuery; simpl. now rewrite Hk, Hf.
Qed.

(** ** Sample queries *)

Module Sample.

Definition table (schema : option string) (name : string) : TableNode.t :=
  TableNode.mk
    (SchemableIdentifierNode.mk (option_map IdentifierNode.mk schema)
       (IdentifierNode.mk name)).

(** The node the query builder stores as the name of a view. *)
Definition view (schema : option string) (name : string)
  : SchemableIdentifierNode.t :=
  SchemableIdentifierNode.mk (option_map IdentifierNode.mk schema)
    (IdentifierNode.mk name).

Definition root (kind : string) : RootOperationNode.t :=
  RootOperationNode.mk kind None None None None None None.

Definition select_from (froms : list OperationNode)
    (joins : option (list OperationNode)) : CompiledQuery.t :=
  CompiledQuery.mk
    (RootOperationNode.mk "SelectQueryNode" (Some (FromNode.mk froms))
       joins None None None None)
    "select * from ...".

Definition select_users : CompiledQuery.t :=
  select_from [OpTableNode (table (Some "public") "users")] None.

Definition update (target : option OperationNode) : CompiledQuery.t :=
  CompiledQuery.mk
    (RootOperationNode.mk "UpdateQueryNode" None None None target None None)
    "update ...".

Definition delete (from : option FromNode.t) : CompiledQuery.t :=
  CompiledQuery.mk
    (RootOperationNode.mk "DeleteQueryNode" from None None None None None)
    "delete from ...".

Definition refresh (name : option SchemableIdentifierNode.t)
    (concurrently : option bool) : CompiledQuery.t :=
  CompiledQuery.mk
    (RootOperationNode.mk "RefreshMaterializedViewNode" None None None None
       name concurrently)
    "refresh materialized view ...".

Definition of_kind (kind : string) : CompiledQuery.t :=
  CompiledQuery.mk (root kind) "".

End Sample.

Example summarize_select_empty :
  summarizeQuery (Sample.select_from [] None) = Normal "SELECT".
Proof. reflexivity. Qed.

Example summarize_select_users :
  summarizeQuery Sample.select_users = Normal "SELECT FROM public.users".
Proof. reflexivity. Qed.

Example summarize_select_two_tables_and_join :
  summarizeQuery
    (Sample.select_from
       [OpTableNode (Sample.table None "a");
        OpAliasNode (OpTableNode (Sample.table None "hidden")) "h";
        OpTableNode (Sample.table (Some "s") "b")]
       (Some [OpTableNode (Sample.table None "j")]))
  = Normal "SELECT FROM a, s.b JOIN j".
Proof. reflexivity. Qed.

Example summarize_update_aliased :
  summarizeQuery
    (Sample.update
       (Some (OpAliasNode (OpTableNode (Sample.table None "users")) "u")))
  = Normal "UPDATE".
Proof. reflexivity. Qed.

Example summarize_ddl :
  map (fun kind => summarizeQuery (Sample.of_kind kind)) ddl_kinds
  = repeat (Normal "DDL Operation") 11.
Proof. reflexivity. Qed.

Example summarize_refresh_without_name :
  summarizeQuery (Sample.refresh None (Some true))
  = Normal "REFRESH MATERIALIZED VIEW CONCURRENTLY".
Proof. reflexivity. Qed.

Example summarize_delete_empty :
  summarizeQuery (Sample.delete (Some (FromNode.mk []))) = Normal "DELETE FROM ".
Proof. reflexivity. Qed.

(** ** The query summarizer: claims *)

(** C2, where the code departs from the claim.  The query builder
    stores the name of a view as a node, and the template literal
    renders a node as ["[object Object]"]: for the view [mv_totals],
    refreshed concurrently, the summarizer returns
    ["REFRESH MATERIALIZED VIEW [object Object] CONCURRENTLY"], where the
    table of the specification gives
    ["REFRESH MATERIALIZED VIEW mv_totals CONCURRENTLY"]. *)
Theorem summarizeQuery_renders_view_name_as_object :
  let cq := Sample.refresh (Some (Sample.view None "mv_totals")) (Some true) in
  well_typed (CompiledQuery.query cq) = true
  /\ summarizeQuery cq
     = Normal "REFRESH MATERIALIZED VIEW [object Object] CONCURRENTLY"
  /\ Spec.span_name (CompiledQuery.query cq)
     = "REFRESH MATERIALIZED VIEW mv_totals CONCURRENTLY".
Proof.
  repeat split.
Qed.

Lemma node_kind_refresh (tag : string) :
  Spec.node_kind tag = Spec.RefreshMaterializedView ->
  tag = "RefreshMaterializedViewNode".
Proof.
  unfold Spec.node_kind; simpl.
  repeat match goal with
    | |- context [if String.eqb tag ?label then _ else _] =>
        destruct (String.eqb_spec tag label); simpl; try discriminate
    end;
    intros _; assumption.
Qed.

(** On every root node but a refresh node that has a name the code
    gives the name of the table. *)
Lemma summary_of_span_name (q : RootOperationNode.t) :
  RootOperationNode.kind q <> "RefreshMaterializedViewNode"
  \/ RootOperationNode.name q = None ->
  summary_of q = Spec.span_name q.
Proof.
  intros H. unfold summary_of, Spec.span_name, Spec.span_name_with.
  destruct (Spec.node_kind (RootOperationNode.kind q)) eqn:Hkind;
    try reflexivity.
  apply node_kind_refresh in Hkind.
  destruct H as [H|H]; [contradiction|].
  now rewrite H.
Qed.

(** X14.  On every compiled query of the declared type, other than a
    refresh node that has a name, the summarizer produces exactly the
    name of the specification's table, kind by kind, with the join
    suffix and the concurrency suffix; on a refresh node that has a
    name it appends [" [object Object]"] in the place of the name.  A
    table name renders as ["<schema>.<table>"] when a schema is present
    and as ["<table>"] otherwise; and the list of names maps nodes that
    are not plain table references to the empty string, drops the empty
    entries and joins the rest with [", "]. *)
Theorem summarizeQuery_matches_table_but_for_view_name :
  (forall cq : CompiledQuery.t,
     well_typed (CompiledQuery.query cq) = true ->
     RootOperationNode.kind (CompiledQuery.query cq)
     <> "RefreshMaterializedViewNode"
     \/ RootOperationNode.name (CompiledQuery.query cq) = None ->
     summarizeQuery cq = Normal (Spec.span_name (CompiledQuery.query cq)))
  /\ (forall (q : RootOperationNode.t) (sql : string)
             (name : SchemableIdentifierNode.t),
        RootOperationNode.kind q = "RefreshMaterializedViewNode" ->
        RootOperationNode.name q = Some name ->
        summarizeQuery (CompiledQuery.mk q sql)
        = Normal ("REFRESH MATERIALIZED VIEW [object Object]"
                  ++ Spec.concurrently_suffix (RootOperationNode.concurrently q)))
  /\ (forall schema name : string,
        getTableName (Sample.table (Some schema) name) = schema ++ "." ++ name
        /\ getTableName (Sample.table None name) = name)
  /\ (forall nodes : list OperationNode,
        join ", " (getTableNames nodes)
        = Spec.comma_separated (Spec.drop_empty (map Spec.node_name nodes))).
Proof.
  split.
  { intros cq Hwt H.
    rewrite (summarizeQuery_span_name cq Hwt).
    now rewrite summary_of_span_name. }
  split.
  { intros q sql name Hk Hn.
    unfold summarizeQuery; simpl. rewrite Hk, Hn; simpl.
    destruct (RootOperationNode.concurrently q) as [[|]|]; reflexivity. }
  split; [intros schema name; split; reflexivity|].
  exact getTableNames_table_list.
Qed.

Lemma summarizeQuery_matches_table_but_for_view_name_witness :
  well_typed (CompiledQuery.query Sample.select_users) = true
  /\ summarizeQuery Sample.select_users = Normal "SELECT FROM public.users".
Proof.
  split; [reflexivity|].
  refine (proj1 summarizeQuery_matches_table_but_for_view_name
            Sample.select_users eq_refl _).
  left. intros H. discriminate H.
Defined.

(** C5, as the specification states it, fails: on a delete node whose
    [from] is absent the summarizer throws a [TypeError] instead of
    returning a name. *)
Lemma summarizeQuery_not_total_on_delete_without_from :
  summarizeQuery (Sample.delete None) = Abrupt (TypeError_undefined "froms")
  /\ ~ exists name : string, summarizeQuery (Sample.delete None) = Normal name.
Proof.
  split; [reflexivity|].
  intros [name H]. discriminate H.
Qed.

(** C5, amended.  The summarizer is a function of the compiled query
    alone and returns a span name, without failing, for every root node
    of the declared type, of every kind, a delete node with an empty
    list of source tables included. *)
Theorem summarizeQuery_total_on_well_typed (cq : CompiledQuery.t) :
  well_typed (CompiledQuery.query cq) = true ->
  exists name : string, summarizeQuery cq = Normal name.
Proof.
  intros Hwt. eexists. now apply summarizeQuery_span_name.
Qed.

Lemma summarizeQuery_total_on_well_typed_witness :
  well_typed (CompiledQuery.query (Sample.delete (Some (FromNode.mk [])))) = true
  /\ exists name : string,
       summarizeQuery (Sample.delete (Some (FromNode.mk []))) = Normal name.
Proof.
  split; [reflexivity|].
  exact (summarizeQuery_total_on_well_typed
           (Sample.delete (Some (FromNode.mk []))) eq_refl).
Defined.

(** ** The wrappers: traces *)

Lemma failure_events_annotate (n : nat) (err : JsValue) :
  forallb (annotates n) (failure_events n err) = true.
Proof.
  unfold failure_events, status_code_events, exception_events, status_events.
  destruct (code_probe_error err), (code_field err), (Error_isError err),
    (js_String err);
    simpl; rewrite ?Nat.eqb_refl; reflexivity.
Qed.

Lemma annotations_not_started (n : nat) (own : list SpanEvent) :
  forallb (annotates n) own = true -> filter is_start own = [].
Proof.
  induction own as [|e own IH]; simpl; [reflexivity|].
  intros H. apply andb_true_iff in H as [He Hown].
  destruct e; simpl in *; try discriminate; auto.
Qed.

Lemma annotations_not_ended (n : nat) (own : list SpanEvent) :
  forallb (annotates n) own = true -> filter is_end own = [].
Proof.
  induction own as [|e own IH]; simpl; [reflexivity|].
  intros H. apply andb_true_iff in H as [He Hown].
  destruct e; simpl in *; try discriminate; auto.
Qed.

(** A trace that opens span [n], lets the wrapped operation run,
    annotates the span and ends it has one start and one end more than
    the wrapped operation caused. *)
Lemma bracket_counts (n : nat) (name : string) (options : SpanOptions)
    (inner own : list SpanEvent) :
  forallb (annotates n) own = true ->
  let evs := (EvStart n name options :: inner ++ own ++ [EvEnd n])%list in
  started evs = 1 + started inner /\ ended evs = 1 + ended inner.
Proof.
  intros Hown evs. unfold evs, started, ended; simpl.
  rewrite !filter_app, !length_app.
  rewrite (annotations_not_started n own Hown).
  rewrite (annotations_not_ended n own Hown).
  simpl. lia.
Qed.

(** The annotations the transaction wrapper makes on its span. *)
Definition execute_annotations (n : nat) (r : Completion JsValue)
  : list SpanEvent :=
  match r with
  | Normal _ => []
  | Abrupt err => failure_events n err
  end.

(** The annotations the query wrapper makes on its span. *)
Definition executeQuery_annotations (n : nat) (r : Completion QueryResult.t)
  : list SpanEvent :=
  match r with
  | Normal res =>
      [EvSetAttribute n "db.response.returned_rows"
         (AttrNumber (length (QueryResult.rows res)))]
  | Abrupt err => failure_events n err
  end.

Lemma execute_annotations_annotate (n : nat) (r : Completion JsValue) :
  forallb (annotates n) (execute_annotations n r) = true.
Proof.
  destruct r; simpl; [reflexivity | apply failure_events_annotate].
Qed.

Lemma executeQuery_annotations_annotate (n : nat)
    (r : Completion QueryResult.t) :
  forallb (annotates n) (executeQuery_annotations n r) = true.
Proof.
  destruct r; simpl; [now rewrite Nat.eqb_refl | apply failure_events_annotate].
Qed.

Lemma execute_wrapper_events (orig : ExecuteFn) (this : JsValue)
    (cb : Callback) (n : nat) :
  events (execute_wrapper otel_tracer orig this cb n)
  = (EvStart n "TRANSACTION" transaction_options
     :: events (orig this cb (S n))
     ++ execute_annotations n (result (orig this cb (S n)))
     ++ [EvEnd n])%list.
Proof.
  rewrite execute_wrapper_outcome. reflexivity.
Qed.

Lemma executeQuery_wrapper_events (orig : ExecuteQueryFn) (this : JsValue)
    (query : CompiledQuery.t) (id : QueryId.t) (n : nat) :
  well_typed (CompiledQuery.query query) = true ->
  events (executeQuery_wrapper otel_tracer orig this query id n)
  = (EvStart n (summary_of (CompiledQuery.query query))
       (query_options (CompiledQuery.sql query))
     :: events (orig this query id (S n))
     ++ executeQuery_annotations n (result (orig this query id (S n)))
     ++ [EvEnd n])%list.
Proof.
  intros Hwt.
  rewrite (executeQuery_wrapper_outcome _ _ _ _ _ _
             (summarizeQuery_span_name query Hwt)).
  reflexivity.
Qed.

(** ** Sample runs *)

Module Run.

Definition this : JsValue :=
  JsObject 1 false false [] (Normal "[object Object]").

Definition cb : Callback := fun trx => ret JsUndefined.

Definition id : QueryId.t := QueryId.mk "q-1".

Definition three_rows : QueryResult.t :=
  QueryResult.mk 2 [JsNumber "1"; JsNumber "2"; JsNumber "3"].

(** An error of the database driver, with its SQLSTATE code. *)
Definition unique_violation : JsValue :=
  JsObject 3 true false
    [("code", Data (JsString "23505"));
     ("message", Data (JsString "duplicate key value"))]
    (Normal "error: duplicate key value").

(** The [TypeError] of a failed conversion to a string. *)
Definition conversion_error : JsValue :=
  JsObject 4 true false
    [("name", Data (JsString "TypeError"));
     ("message", Data (JsString "Cannot convert object to primitive value"))]
    (Normal "TypeError: Cannot convert object to primitive value").

(** [Object.create(null)]: an object without [toString], which
    [String] cannot convert. *)
Definition bare_object : JsValue :=
  JsObject 5 false false [] (Abrupt conversion_error).

(** [Object.assign(Object.create(null), { code: "23505" })] *)
Definition coded_bare_object : JsValue :=
  JsObject 7 false false [("code", Data (JsString "23505"))]
    (Abrupt conversion_error).

(** What the getter of the objects below throws. *)
Definition getter_error : JsValue :=
  JsObject 8 true false
    [("message", Data (JsString "code is not available"))]
    (Normal "Error: code is not available").

(** [{ get code() { throw getter_error } }]: a plain object, which
    [String] converts, whose [code] is an accessor that throws. *)
Definition object_with_throwing_code : JsValue :=
  JsObject 9 false false [("code", ThrowingGetter getter_error)]
    (Normal "[object Object]").

(** An [Error] whose [code] is an accessor that throws. *)
Definition error_with_throwing_code : JsValue :=
  JsObject 10 true false
    [("code", ThrowingGetter getter_error);
     ("message", Data (JsString "connection lost"))]
    (Normal "Error: connection lost").

(** [Object.assign(function rollback() {}, { code: "40001" })] *)
Definition coded_function : JsValue :=
  JsObject 6 false true [("code", Data (JsString "40001"))]
    (Normal "function rollback() {}").

Definition execute_returns (v : JsValue) : ExecuteFn :=
  fun _ _ => ret v.

Definition execute_throws (err : JsValue) : ExecuteFn :=
  fun _ _ => throw err.

Definition executeQuery_returns (res : QueryResult.t) : ExecuteQueryFn :=
  fun _ _ _ => ret res.

Definition executeQuery_throws (err : JsValue) : ExecuteQueryFn :=
  fun _ _ _ => throw err.

(** A library whose transaction runs its callback and whose queries
    return three rows. *)
Definition library : Prototypes :=
  {| TransactionBuilder_execute := fun this cb => cb this;
     DefaultQueryExecutor_executeQuery := executeQuery_returns three_rows |}.

End Run.

Example run_query_success :
  executeQuery_wrapper otel_tracer (Run.executeQuery_returns Run.three_rows)
    Run.this Sample.select_users Run.id 0
  = mkOutcome (Normal Run.three_rows)
      [EvStart 0 "SELECT FROM public.users"
         (query_options "select * from ...");
       EvSetAttribute 0 "db.response.returned_rows" (AttrNumber 3);
       EvEnd 0]
      1.
Proof. reflexivity. Qed.

Example run_query_failure :
  executeQuery_wrapper otel_tracer (Run.executeQuery_throws Run.unique_violation)
    Run.this Sample.select_users Run.id 0
  = mkOutcome (Abrupt Run.unique_violation)
      [EvStart 0 "SELECT FROM public.users"
         (query_options "select * from ...");
       EvSetAttribute 0 "db.response.status_code" (AttrString "23505");
       EvRecordException 0 Run.unique_violation;
       EvSetStatus 0 (error_status "error: duplicate key value");
       EvEnd 0]
      1.
Proof. reflexivity. Qed.

Example run_transaction_throwing_string :
  execute_wrapper otel_tracer (Run.execute_throws (JsString "boom"))
    Run.this Run.cb 0
  = mkOutcome (Abrupt (JsString "boom"))
      [EvStart 0 "TRANSACTION" transaction_options;
       EvSetStatus 0 (error_status "boom");
       EvEnd 0]
      1.
Proof. reflexivity. Qed.

(** A delete node without [from] is outside the declared type of the
    argument: the summarizer throws while the arguments of
    [startActiveSpan] are evaluated, and no span is started. *)
Example run_query_delete_without_from :
  executeQuery_wrapper otel_tracer (Run.executeQuery_returns Run.three_rows)
    Run.this (Sample.delete None) Run.id 0
  = mkOutcome (Abrupt (TypeError_undefined "froms")) [] 0.
Proof. reflexivity. Qed.

(** A query issued from the callback of a transaction: its span nests
    in the span of the transaction. *)
Example run_query_in_transaction :
  let lib := setupInstrumentation otel_tracer Run.library in
  events
    (TransactionBuilder_execute lib Run.this
       (fun trx =>
          res <- DefaultQueryExecutor_executeQuery lib trx
                   Sample.select_users Run.id ;;
          ret JsUndefined)
       0)
  = [EvStart 0 "TRANSACTION" transaction_options;
     EvStart 1 "SELECT FROM public.users" (query_options "select * from ...");
     EvSetAttribute 1 "db.response.returned_rows" (AttrNumber 3);
     EvEnd 1;
     EvEnd 0].
Proof. reflexivity. Qed.

(** ** The wrappers: claims *)

(** C1.  For every intercepted call, of the transaction wrapper and of
    the query wrapper, whatever the wrapped operation does (return or
    throw): the wrapper starts one span, lets the operation run,
    annotates that span and ends it as its last action; so the call
    starts exactly one span and ends exactly one span more than the
    wrapped operation itself, and the end comes after every attribute,
    exception and status the wrapper puts on the span. *)
Theorem one_span_started_and_ended_per_call
    (orig_t : ExecuteFn) (orig_q : ExecuteQueryFn) (this : JsValue)
    (cb : Callback) (query : CompiledQuery.t) (id : QueryId.t) (n : nat) :
  well_typed (CompiledQuery.query query) = true ->
  let inner_t := orig_t this cb (S n) in
  let outer_t := execute_wrapper otel_tracer orig_t this cb n in
  let inner_q := orig_q this query id (S n) in
  let outer_q := executeQuery_wrapper otel_tracer orig_q this query id n in
  ((exists name options own,
       events outer_t
       = (EvStart n name options :: events inner_t ++ own ++ [EvEnd n])%list
       /\ forallb (annotates n) own = true)
   /\ started (events outer_t) = 1 + started (events inner_t)
   /\ ended (events outer_t) = 1 + ended (events inner_t))
  /\
  ((exists name options own,
       events outer_q
       = (EvStart n name options :: events inner_q ++ own ++ [EvEnd n])%list
       /\ forallb (annotates n) own = true)
   /\ started (events outer_q) = 1 + started (events inner_q)
   /\ ended (events outer_q) = 1 + ended (events inner_q)).
Proof.
  intros Hwt inner_t outer_t inner_q outer_q.
  unfold outer_t, outer_q.
  rewrite execute_wrapper_events, (executeQuery_wrapper_events _ _ _ _ _ Hwt).
  fold inner_t inner_q.
  pose proof (execute_annotations_annotate n (result inner_t)) as Ht.
  pose proof (executeQuery_annotations_annotate n (result inner_q)) as Hq.
  split; (split; [do 3 eexists; split; [reflexivity | assumption]|]).
  - exact (bracket_counts n _ _ (events inner_t) _ Ht).
  - exact (bracket_counts n _ _ (events inner_q) _ Hq).
Qed.

Lemma one_span_started_and_ended_per_call_witness :
  well_typed (CompiledQuery.query Sample.select_users) = true
  /\ started
       (events
          (executeQuery_wrapper otel_tracer
             (Run.executeQuery_throws Run.unique_violation)
             Run.this Sample.select_users Run.id 0))
     = 1
  /\ ended
       (events
          (executeQuery_wrapper otel_tracer
             (Run.executeQuery_throws Run.unique_violation)
             Run.this Sample.select_users Run.id 0))
     = 1.
Proof.
  split; [reflexivity|].
  exact (proj2 (proj2 (one_span_started_and_ended_per_call
                         (Run.execute_returns JsUndefined)
                         (Run.executeQuery_throws Run.unique_violation)
                         Run.this Run.cb Sample.select_users Run.id 0
                         eq_refl))).
Defined.

(** C7.  Every wrapped transaction execution starts, before anything
    else, a span named ["TRANSACTION"] of kind internal with the initial
    attribute [db.system.name = "postgres"]; every wrapped query
    execution starts a span named by the summarizer, of kind internal,
    with the initial attributes [db.system.name = "postgres"] and
    [db.query.text] equal to the SQL text of the compiled query. *)
Theorem spans_start_with_name_kind_and_attributes
    (orig_t : ExecuteFn) (orig_q : ExecuteQueryFn) (this : JsValue)
    (cb : Callback) (query : CompiledQuery.t) (id : QueryId.t) (n : nat) :
  well_typed (CompiledQuery.query query) = true ->
  (exists rest,
     events (execute_wrapper otel_tracer orig_t this cb n)
     = EvStart n "TRANSACTION"
         {| kind := INTERNAL;
            attributes := [("db.system.name", AttrString "postgres")] |}
       :: rest)
  /\
  (exists name rest,
     summarizeQuery query = Normal name
     /\ events (executeQuery_wrapper otel_tracer orig_q this query id n)
        = EvStart n name
            {| kind := INTERNAL;
               attributes :=
                 [("db.system.name", AttrString "postgres");
                  ("db.query.text", AttrString (CompiledQuery.sql query))] |}
          :: rest).
Proof.
  intros Hwt. split.
  - rewrite execute_wrapper_events. eexists. reflexivity.
  - rewrite (executeQuery_wrapper_events _ _ _ _ _ Hwt).
    do 2 eexists. split; [apply summarizeQuery_span_name, Hwt | reflexivity].
Qed.

Lemma spans_start_with_name_kind_and_attributes_witness :
  well_typed (CompiledQuery.query Sample.select_users) = true
  /\ exists name rest,
       summarizeQuery Sample.select_users = Normal name
       /\ events
            (executeQuery_wrapper otel_tracer
               (Run.executeQuery_returns Run.three_rows)
               Run.this Sample.select_users Run.id 0)
          = EvStart 0 name
              {| kind := INTERNAL;
                 attributes :=
                   [("db.system.name", AttrString "postgres");
                    ("db.query.text", AttrString "select * from ...")] |}
            :: rest.
Proof.
  split; [reflexivity|].
  exact (proj2 (spans_start_with_name_kind_and_attributes
                  (Run.execute_returns JsUndefined)
                  (Run.executeQuery_returns Run.three_rows)
                  Run.this Run.cb Sample.select_users Run.id 0 eq_refl)).
Defined.

(** C4.  For every successful wrapped query execution the wrapper sets
    the attribute [db.response.returned_rows] of its span to the number
    of rows of the underlying result, between the events of the
    underlying execution and the end of the span, and returns the
    underlying result itself: the same object, with the same rows. *)
Theorem successful_query_counts_rows_and_returns_result
    (orig : ExecuteQueryFn) (this : JsValue) (query : CompiledQuery.t)
    (id : QueryId.t) (n : nat) (res : QueryResult.t) :
  well_typed (CompiledQuery.query query) = true ->
  result (orig this query id (S n)) = Normal res ->
  let outer := executeQuery_wrapper otel_tracer orig this query id n in
  result outer = Normal res
  /\ exists name,
       events outer
       = (EvStart n name (query_options (CompiledQuery.sql query))
          :: events (orig this query id (S n))
          ++ [EvSetAttribute n "db.response.returned_rows"
                (AttrNumber (length (QueryResult.rows res)));
              EvEnd n])%list.
Proof.
  intros Hwt Hres outer. unfold outer.
  rewrite (executeQuery_wrapper_outcome _ _ _ _ _ _
             (summarizeQuery_span_name query Hwt)).
  simpl. rewrite Hres. split; [reflexivity|].
  eexists. reflexivity.
Qed.

Lemma successful_query_counts_rows_and_returns_result_witness :
  well_typed (CompiledQuery.query Sample.select_users) = true
  /\ result (Run.executeQuery_returns Run.three_rows
               Run.this Sample.select_users Run.id 1)
     = Normal Run.three_rows
  /\ result
       (executeQuery_wrapper otel_tracer
          (Run.executeQuery_returns Run.three_rows)
          Run.this Sample.select_users Run.id 0)
     = Normal Run.three_rows.
Proof.
  split; [reflexivity|]. split; [reflexivity|].
  exact (proj1 (successful_query_counts_rows_and_returns_result
                  (Run.executeQuery_returns Run.three_rows)
                  Run.this Sample.select_users Run.id 0 Run.three_rows
                  eq_refl eq_refl)).
Defined.

(** C10.  When the wrapped operation succeeds, the wrapper puts no
    status on its span: a successful transaction adds nothing between
    the events of the operation and the end of the span, a successful
    query only the row count.  Whenever the wrapper does set a status,
    the wrapped operation has thrown. *)
Theorem status_set_only_on_failure
    (orig_t : ExecuteFn) (orig_q : ExecuteQueryFn) (this : JsValue)
    (cb : Callback) (query : CompiledQuery.t) (id : QueryId.t) (n : nat) :
  well_typed (CompiledQuery.query query) = true ->
  let inner_t := orig_t this cb (S n) in
  let inner_q := orig_q this query id (S n) in
  exists name own_t own_q,
    events (execute_wrapper otel_tracer orig_t this cb n)
    = (EvStart n "TRANSACTION" transaction_options
       :: events inner_t ++ own_t ++ [EvEnd n])%list
    /\ events (executeQuery_wrapper otel_tracer orig_q this query id n)
       = (EvStart n name (query_options (CompiledQuery.sql query))
          :: events inner_q ++ own_q ++ [EvEnd n])%list
    /\ (forall res, result inner_t = Normal res -> own_t = [])
    /\ (forall res,
          result inner_q = Normal res ->
          own_q = [EvSetAttribute n "db.response.returned_rows"
                     (AttrNumber (length (QueryResult.rows res)))])
    /\ (existsb is_set_status own_t = true ->
        exists err, result inner_t = Abrupt err)
    /\ (existsb is_set_status own_q = true ->
        exists err, result inner_q = Abrupt err).
Proof.
  intros Hwt inner_t inner_q.
  rewrite execute_wrapper_events, (executeQuery_wrapper_events _ _ _ _ _ Hwt).
  fold inner_t inner_q.
  do 3 eexists.
  split; [reflexivity|]. split; [reflexivity|].
  destruct (result inner_t) as [rt|et], (result inner_q) as [rq|eq]; simpl;
    repeat split; intros; try discriminate; try congruence; eauto.
Qed.

Lemma status_set_only_on_failure_witness :
  well_typed (CompiledQuery.query Sample.select_users) = true
  /\ events (execute_wrapper otel_tracer (Run.execute_returns JsNull)
               Run.this Run.cb 0)
     = [EvStart 0 "TRANSACTION" transaction_options; EvEnd 0].
Proof.
  split; [reflexivity|].
  destruct (status_set_only_on_failure
              (Run.execute_returns JsNull)
              (Run.executeQuery_returns Run.three_rows)
              Run.this Run.cb Sample.select_users Run.id 0 eq_refl)
    as (name & own_t & own_q & Ht & _ & Hown & _).
  rewrite (Hown JsNull eq_refl) in Ht.
  exact Ht.
Defined.

(** The thrown values that are not objects. *)
Definition is_primitive (v : JsValue) : bool :=
  match v with
  | JsObject _ _ _ _ _ => false
  | _ => true
  end.

Lemma code_field_object (err : JsValue) (c : string) :
  code_field err = Some c ->
  exists oid errorData props toStringResult,
    err = JsObject oid errorData false props toStringResult
    /\ lookup "code" props = Some (JsString c).
Proof.
  destruct err as [ | | b | r | r | s | d | oid ed callable props ts ];
    try discriminate.
  simpl. destruct callable; [discriminate|].
  destruct (lookup "code" props) as [[ | | | | | s | | ]|] eqn:Hl;
    try discriminate.
  intros [= ->]. now exists oid, ed, props, ts.
Qed.

Lemma status_code_in_failure_events (n span : nat) (err : JsValue)
    (v : AttributeValue) :
  In (EvSetAttribute span "db.response.status_code" v) (failure_events n err) ->
  span = n /\ exists c, code_field err = Some c /\ v = AttrString c.
Proof.
  unfold failure_events, status_code_events, exception_events, status_events.
  destruct (code_probe_error err); [simpl; tauto|].
  rewrite !in_app_iff. intros [H|[H|H]].
  - destruct (code_field err) as [c|]; [|contradiction].
    destruct H as [[= <- <-]|[]]. eauto.
  - destruct (Error_isError err); [|contradiction].
    destruct H as [[=]|[]].
  - destruct (js_String err); [|contradiction].
    destruct H as [[=]|[]].
Qed.

(** C9.  The wrapper sets the attribute [db.response.status_code] on its
    span only when the wrapped operation has thrown an object (not
    [null], not a primitive) whose [code] property is a string, and
    then to that string; a thrown primitive never produces the
    attribute. *)
Theorem status_code_only_from_object_with_string_code
    (orig_t : ExecuteFn) (orig_q : ExecuteQueryFn) (this : JsValue)
    (cb : Callback) (query : CompiledQuery.t) (id : QueryId.t) (n : nat) :
  well_typed (CompiledQuery.query query) = true ->
  let inner_t := orig_t this cb (S n) in
  let inner_q := orig_q this query id (S n) in
  exists name own_t own_q,
    events (execute_wrapper otel_tracer orig_t this cb n)
    = (EvStart n "TRANSACTION" transaction_options
       :: events inner_t ++ own_t ++ [EvEnd n])%list
    /\ events (executeQuery_wrapper otel_tracer orig_q this query id n)
       = (EvStart n name (query_options (CompiledQuery.sql query))
          :: events inner_q ++ own_q ++ [EvEnd n])%list
    /\ (forall span v,
          In (EvSetAttribute span "db.response.status_code" v) own_t ->
          exists oid errorData props toStringResult c,
            result inner_t
            = Abrupt (JsObject oid errorData false props toStringResult)
            /\ lookup "code" props = Some (JsString c)
            /\ v = AttrString c /\ span = n)
    /\ (forall span v,
          In (EvSetAttribute span "db.response.status_code" v) own_q ->
          exists oid errorData props toStringResult c,
            result inner_q
            = Abrupt (JsObject oid errorData false props toStringResult)
            /\ lookup "code" props = Some (JsString c)
            /\ v = AttrString c /\ span = n)
    /\ (forall err span v,
          result inner_t = Abrupt err -> is_primitive err = true ->
          ~ In (EvSetAttribute span "db.response.status_code" v) own_t)
    /\ (forall err span v,
          result inner_q = Abrupt err -> is_primitive err = true ->
          ~ In (EvSetAttribute span "db.response.status_code" v) own_q).
Proof.
  intros Hwt inner_t inner_q.
  rewrite execute_wrapper_events, (executeQuery_wrapper_events _ _ _ _ _ Hwt).
  fold inner_t inner_q.
  do 3 eexists.
  split; [reflexivity|]. split; [reflexivity|].
  assert (Hobj : forall span v err,
            In (EvSetAttribute span "db.response.status_code" v)
               (failure_events n err) ->
            exists oid errorData props toStringResult c,
              err = JsObject oid errorData false props toStringResult
              /\ lookup "code" props = Some (JsString c)
              /\ v = AttrString c /\ span = n).
  { intros span v err H.
    apply status_code_in_failure_events in H as (-> & c & Hc & ->).
    apply code_field_object in Hc as (oid & ed & props & ts & -> & Hl).
    now exists oid, ed, props, ts, c. }
  destruct (result inner_t) as [rt|et], (result inner_q) as [rq|eq]; simpl;
    repeat split; intros;
    repeat match goal with
      | H : False |- _ => contradiction
      | H : _ \/ False |- _ => destruct H as [H|[]]
      | H : EvSetAttribute _ _ _ = EvSetAttribute _ _ _ |- _ => discriminate H
      | H : Abrupt _ = Abrupt _ |- _ => injection H as <-
      | H : In _ (failure_events _ _) |- _ =>
          apply Hobj in H as (oid & ed & props & ts & c & -> & Hl & -> & ->)
      | H : is_primitive (JsObject _ _ _ _ _) = true |- _ => discriminate H
      | H : Normal _ = Abrupt _ |- _ => discriminate H
      | |- ~ _ => intros ?
      end;
    eauto 10.
Qed.

Lemma status_code_only_from_object_with_string_code_witness :
  well_typed (CompiledQuery.query Sample.select_users) = true
  /\ ~ In (EvSetAttribute 0 "db.response.status_code" (AttrString "23505"))
         (events
            (execute_wrapper otel_tracer (Run.execute_throws (JsString "23505"))
               Run.this Run.cb 0)).
Proof.
  split; [reflexivity|].
  destruct (status_code_only_from_object_with_string_code
              (Run.execute_throws (JsString "23505"))
              (Run.executeQuery_returns Run.three_rows)
              Run.this Run.cb Sample.select_users Run.id 0 eq_refl)
    as (name & own_t & own_q & Ht & _ & _ & _ & Hprim & _).
  rewrite Ht. simpl.
  intros [H|H]; [discriminate H|].
  apply in_app_iff in H as [H|[H|[]]]; [|discriminate H].
  exact (Hprim (JsString "23505") 0 (AttrString "23505") eq_refl eq_refl H).
Defined.

(** C3, as the specification states it, fails on two thrown values.  A
    thrown object that [String] cannot convert: the conversion throws
    inside the catch block, no status is set, and the caller observes
    the conversion's [TypeError] instead of the original value.  A
    thrown function that carries a string [code]: its [typeof] is
    ["function"], and the attribute is not set. *)
Lemma failure_not_always_annotated_and_rethrown :
  (let outer :=
     executeQuery_wrapper otel_tracer
       (Run.executeQuery_throws Run.coded_bare_object)
       Run.this Sample.select_users Run.id 0 in
   result outer = Abrupt Run.conversion_error
   /\ result outer <> Abrupt Run.coded_bare_object
   /\ events outer
      = [EvStart 0 "SELECT FROM public.users"
           (query_options "select * from ...");
         EvSetAttribute 0 "db.response.status_code" (AttrString "23505");
         EvEnd 0])
  /\
  (js_get Run.coded_function "code" = Normal (JsString "40001")
   /\ events
        (execute_wrapper otel_tracer (Run.execute_throws Run.coded_function)
           Run.this Run.cb 0)
      = [EvStart 0 "TRANSACTION" transaction_options;
         EvSetStatus 0 (error_status "function rollback() {}");
         EvEnd 0]).
Proof.
  split; [|split; reflexivity].
  split; [reflexivity|]. split; [|reflexivity].
  simpl. intros H. discriminate H.
Qed.

(** C3, amended.  For every failing intercepted execution, of a
    transaction or of a query, whose thrown value the catch block
    inspects and converts without a further throw (the probe of its
    [code] completes and [String] converts it to a message): the
    wrapper sets [db.response.status_code] when the thrown value is an
    object, with [typeof] ["object"], whose [code] property is a
    string, to that string; records the thrown value as an exception
    when it is an error object; sets the status of the span to ERROR
    with that message; ends the span; and throws the original value
    again, unchanged. *)
Theorem failure_is_annotated_and_rethrown
    (orig_t : ExecuteFn) (orig_q : ExecuteQueryFn) (this : JsValue)
    (cb : Callback) (query : CompiledQuery.t) (id : QueryId.t) (n : nat)
    (err : JsValue) (msg : string) :
  well_typed (CompiledQuery.query query) = true ->
  inspected err ->
  js_String err = Normal msg ->
  let code_attribute :=
    match code_field err with
    | Some c => [EvSetAttribute n "db.response.status_code" (AttrString c)]
    | None => []
    end in
  let exception :=
    if Error_isError err then [EvRecordException n err] else [] in
  let annotations :=
    (code_attribute ++ exception
     ++ [EvSetStatus n {| code := ERROR; message := msg |}])%list in
  (result (orig_t this cb (S n)) = Abrupt err ->
   let outer := execute_wrapper otel_tracer orig_t this cb n in
   result outer = Abrupt err
   /\ events outer
      = (EvStart n "TRANSACTION" transaction_options
         :: events (orig_t this cb (S n)) ++ annotations ++ [EvEnd n])%list)
  /\
  (result (orig_q this query id (S n)) = Abrupt err ->
   let outer := executeQuery_wrapper otel_tracer orig_q this query id n in
   result outer = Abrupt err
   /\ exists name,
        events outer
        = (EvStart n name (query_options (CompiledQuery.sql query))
           :: events (orig_q this query id (S n))
           ++ annotations ++ [EvEnd n])%list).
Proof.
  intros Hwt Hins Hmsg code_attribute exception annotations.
  unfold inspected in Hins.
  assert (Hann : failure_events n err = annotations).
  { unfold failure_events, status_events. now rewrite Hins, Hmsg. }
  assert (Hre : forall A, @rethrown A err = Abrupt err).
  { intros A. unfold rethrown. now rewrite Hins, Hmsg. }
  split; intros Hthrow outer; unfold outer.
  - rewrite execute_wrapper_outcome; simpl.
    rewrite Hthrow, Hann, Hre. split; reflexivity.
  - rewrite (executeQuery_wrapper_outcome _ _ _ _ _ _
               (summarizeQuery_span_name query Hwt)); simpl.
    rewrite Hthrow, Hann, Hre. split; [reflexivity|].
    eexists. reflexivity.
Qed.

Lemma failure_is_annotated_and_rethrown_witness :
  well_typed (CompiledQuery.query Sample.select_users) = true
  /\ inspected Run.unique_violation
  /\ js_String Run.unique_violation = Normal "error: duplicate key value"
  /\ result (Run.execute_throws Run.unique_violation Run.this Run.cb 1)
     = Abrupt Run.unique_violation
  /\ result
       (execute_wrapper otel_tracer (Run.execute_throws Run.unique_violation)
          Run.this Run.cb 0)
     = Abrupt Run.unique_violation
  /\ events
       (execute_wrapper otel_tracer (Run.execute_throws Run.unique_violation)
          Run.this Run.cb 0)
     = [EvStart 0 "TRANSACTION" transaction_options;
        EvSetAttribute 0 "db.response.status_code" (AttrString "23505");
        EvRecordException 0 Run.unique_violation;
        EvSetStatus 0 (error_status "error: duplicate key value");
        EvEnd 0].
Proof.
  split; [reflexivity|]. split; [reflexivity|]. split; [reflexivity|].
  split; [reflexivity|].
  exact (proj1 (failure_is_annotated_and_rethrown
                  (Run.execute_throws Run.unique_violation)
                  (Run.executeQuery_throws Run.unique_violation)
                  Run.this Run.cb Sample.select_users Run.id 0
                  Run.unique_violation "error: duplicate key value"
                  eq_refl eq_refl eq_refl)
           eq_refl).
Defined.

(** [String] converts every primitive; only the conversion of an
    object can throw. *)
Lemma js_String_primitive (v : JsValue) :
  is_primitive v = true -> exists msg, js_String v = Normal msg.
Proof.
  destruct v as [ | | [|] | r | r | s | [d|] | oid ed callable props ts ];
    try discriminate; intros _; eexists; reflexivity.
Qed.

(** C6, where the code departs from the claim.  Two thrown values that
    are not error objects.  An object that [String] cannot convert: the
    conversion throws inside the catch block before [setStatus] and
    [throw err], the span receives no status, and the caller observes
    the conversion's [TypeError] instead of the thrown value.  An
    object that [String] converts but whose [code] is an accessor that
    throws: the probe of the code throws first, with the same effect.
    The span is ended in both cases. *)
Theorem non_error_not_always_given_status_and_rethrown :
  (Error_isError Run.bare_object = false
   /\ execute_wrapper otel_tracer (Run.execute_throws Run.bare_object)
        Run.this Run.cb 0
      = mkOutcome (Abrupt Run.conversion_error)
          [EvStart 0 "TRANSACTION" transaction_options; EvEnd 0] 1
   /\ Abrupt (A:=JsValue) Run.conversion_error <> Abrupt Run.bare_object)
  /\
  (Error_isError Run.object_with_throwing_code = false
   /\ js_String Run.object_with_throwing_code = Normal "[object Object]"
   /\ execute_wrapper otel_tracer
        (Run.execute_throws Run.object_with_throwing_code) Run.this Run.cb 0
      = mkOutcome (Abrupt Run.getter_error)
          [EvStart 0 "TRANSACTION" transaction_options; EvEnd 0] 1
   /\ Abrupt (A:=JsValue) Run.getter_error
      <> Abrupt Run.object_with_throwing_code).
Proof.
  split.
  - split; [reflexivity|]. split; [reflexivity|].
    intros H. discriminate H.
  - split; [reflexivity|]. split; [reflexivity|]. split; [reflexivity|].
    intros H. discriminate H.
Qed.

(** ** Installing twice *)

Lemma execute_wrapper_started (orig : ExecuteFn) (this : JsValue)
    (cb : Callback) (n : nat) :
  started (events (execute_wrapper otel_tracer orig this cb n))
  = 1 + started (events (orig this cb (S n))).
Proof.
  rewrite execute_wrapper_events.
  apply (bracket_counts n _ _ (events (orig this cb (S n)))).
  apply execute_annotations_annotate.
Qed.

(** No count of started spans can drop by one at every step. *)
Lemma no_infinite_descent (s : nat -> nat) :
  ~ (forall m, s m = 1 + s (S m)).
Proof.
  intros H.
  assert (Hk : forall k, s 0 = k + s k).
  { induction k as [|k IH]; [reflexivity|].
    rewrite IH, (H k). lia. }
  specialize (Hk (S (s 0))). lia.
Qed.

(** C8.  [setupInstrumentation] is not idempotent.  A second call wraps
    the entry points the first call installed: after two installs an
    intercepted call opens two spans, one inside the other, around the
    original operation, and closes them in reverse order; and whatever
    the library, installing twice differs from installing once. *)
Theorem setupInstrumentation_twice_wraps_twice
    (lib : Prototypes) (this : JsValue) (cb : Callback)
    (query : CompiledQuery.t) (id : QueryId.t) (n : nat) :
  well_typed (CompiledQuery.query query) = true ->
  let once := setupInstrumentation otel_tracer lib in
  let twice := setupInstrumentation otel_tracer once in
  let inner_t := TransactionBuilder_execute lib this cb (S (S n)) in
  let inner_q :=
    DefaultQueryExecutor_executeQuery lib this query id (S (S n)) in
  (exists own_inner own_outer,
     events (TransactionBuilder_execute twice this cb n)
     = (EvStart n "TRANSACTION" transaction_options
        :: EvStart (S n) "TRANSACTION" transaction_options
        :: events inner_t
        ++ own_inner ++ [EvEnd (S n)] ++ own_outer ++ [EvEnd n])%list
     /\ forallb (annotates (S n)) own_inner = true
     /\ forallb (annotates n) own_outer = true)
  /\
  (exists name own_inner own_outer,
     events (DefaultQueryExecutor_executeQuery twice this query id n)
     = (EvStart n name (query_options (CompiledQuery.sql query))
        :: EvStart (S n) name (query_options (CompiledQuery.sql query))
        :: events inner_q
        ++ own_inner ++ [EvEnd (S n)] ++ own_outer ++ [EvEnd n])%list
     /\ forallb (annotates (S n)) own_inner = true
     /\ forallb (annotates n) own_outer = true)
  /\ started (events (TransactionBuilder_execute twice this cb n))
     = 2 + started (events inner_t)
  /\ twice <> once.
Proof.
  intros Hwt once twice inner_t inner_q.
  unfold twice, once, setupInstrumentation;
    cbn [TransactionBuilder_execute DefaultQueryExecutor_executeQuery].
  split; [|split; [|split]].
  - rewrite execute_wrapper_events, execute_wrapper_events.
    fold inner_t. do 2 eexists.
    split; [|split; apply execute_annotations_annotate].
    simpl. now rewrite <- !app_assoc.
  - rewrite (executeQuery_wrapper_events _ _ _ _ _ Hwt).
    rewrite (executeQuery_wrapper_events _ _ _ _ _ Hwt).
    fold inner_q. do 3 eexists.
    split; [|split; apply executeQuery_annotations_annotate].
    simpl. now rewrite <- !app_assoc.
  - rewrite !execute_wrapper_started. reflexivity.
  - intros Heq.
    apply (no_infinite_descent
             (fun m => started
                         (events (TransactionBuilder_execute lib this cb (S m))))).
    intros m.
    apply (f_equal (fun p => started
                               (events (TransactionBuilder_execute p this cb m))))
      in Heq.
    cbn [TransactionBuilder_execute] in Heq.
    rewrite !execute_wrapper_started in Heq. lia.
Qed.

Lemma setupInstrumentation_twice_wraps_twice_witness :
  well_typed (CompiledQuery.query Sample.select_users) = true
  /\ started
       (events
          (TransactionBuilder_execute
             (setupInstrumentation otel_tracer
                (setupInstrumentation otel_tracer Run.library))
             Run.this Run.cb 0))
     = 2.
Proof.
  split; [reflexivity|].
  exact (proj1 (proj2 (proj2
           (setupInstrumentation_twice_wraps_twice
              Run.library Run.this Run.cb Sample.select_users Run.id 0
              eq_refl)))).
Defined.

Example run_after_two_installs :
  let twice :=
    setupInstrumentation otel_tracer
      (setupInstrumentation otel_tracer Run.library) in
  events
    (DefaultQueryExecutor_executeQuery twice Run.this
       Sample.select_users Run.id 0)
  = [EvStart 0 "SELECT FROM public.users" (query_options "select * from ...");
     EvStart 1 "SELECT FROM public.users" (query_options "select * from ...");
     EvSetAttribute 1 "db.response.returned_rows" (AttrNumber 3);
     EvEnd 1;
     EvSetAttribute 0 "db.response.returned_rows" (AttrNumber 3);
     EvEnd 0].
Proof. reflexivity. Qed.


(** * Further properties of the wrappers and of the summarizer *)

(** ** The wrappers as observers *)

(** X1.  The wrappers do not change how a call completes: when the
    original operation returns, or throws a value that the catch block
    inspects and converts without a further throw (the probe of its
    [code] completes and [String] converts it), the wrapped call
    returns the same value or throws the same value. *)
Theorem wrappers_preserve_completion
    (orig_t : ExecuteFn) (orig_q : ExecuteQueryFn) (this : JsValue)
    (cb : Callback) (query : CompiledQuery.t) (id : QueryId.t) (n : nat) :
  well_typed (CompiledQuery.query query) = true ->
  (forall err, result (orig_t this cb (S n)) = Abrupt err ->
               inspected err /\ exists msg, js_String err = Normal msg) ->
  (forall err, result (orig_q this query id (S n)) = Abrupt err ->
               inspected err /\ exists msg, js_String err = Normal msg) ->
  result (execute_wrapper otel_tracer orig_t this cb n)
  = result (orig_t this cb (S n))
  /\ result (executeQuery_wrapper otel_tracer orig_q this query id n)
     = result (orig_q this query id (S n)).
Proof.
  intros Hwt Ht Hq.
  rewrite execute_wrapper_outcome.
  rewrite (executeQuery_wrapper_outcome _ _ _ _ _ _
             (summarizeQuery_span_name query Hwt)).
  simpl. split.
  - destruct (result (orig_t this cb (S n))) as [res|err]; [reflexivity|].
    destruct (Ht err eq_refl) as [Hins [msg Hmsg]].
    unfold rethrown. unfold inspected in Hins. now rewrite Hins, Hmsg.
  - destruct (result (orig_q this query id (S n))) as [res|err]; [reflexivity|].
    destruct (Hq err eq_refl) as [Hins [msg Hmsg]].
    unfold rethrown. unfold inspected in Hins. now rewrite Hins, Hmsg.
Qed.

Lemma wrappers_preserve_completion_witness :
  well_typed (CompiledQuery.query Sample.select_users) = true
  /\ result
       (execute_wrapper otel_tracer (Run.execute_returns (JsString "done"))
          Run.this Run.cb 0)
     = Normal (JsString "done")
  /\ result
       (executeQuery_wrapper otel_tracer
          (Run.executeQuery_throws Run.unique_violation)
          Run.this Sample.select_users Run.id 0)
     = Abrupt Run.unique_violation.
Proof.
  split; [reflexivity|].
  apply (wrappers_preserve_completion
           (Run.execute_returns (JsString "done"))
           (Run.executeQuery_throws Run.unique_violation)
           Run.this Run.cb Sample.select_users Run.id 0 eq_refl).
  - intros err H. discriminate H.
  - intros err H. injection H as <-.
    split; [reflexivity|]. eexists. reflexivity.
Defined.

(** X2.  When the catch block reaches [String] (the probe of the code
    completes) and [String] cannot convert the thrown value, the
    conversion throws inside the catch block: the attribute and the
    exception record made before it stay, no status is set, the span is
    still ended, and the wrapped call throws what the conversion
    threw. *)
Theorem conversion_failure_replaces_thrown_value
    (orig_t : ExecuteFn) (orig_q : ExecuteQueryFn) (this : JsValue)
    (cb : Callback) (query : CompiledQuery.t) (id : QueryId.t) (n : nat)
    (err e : JsValue) :
  well_typed (CompiledQuery.query query) = true ->
  inspected err ->
  js_String err = Abrupt e ->
  (result (orig_t this cb (S n)) = Abrupt err ->
   let outer := execute_wrapper otel_tracer orig_t this cb n in
   result outer = Abrupt e
   /\ events outer
      = (EvStart n "TRANSACTION" transaction_options
         :: events (orig_t this cb (S n))
         ++ status_code_events n err ++ exception_events n err
         ++ [EvEnd n])%list)
  /\
  (result (orig_q this query id (S n)) = Abrupt err ->
   let outer := executeQuery_wrapper otel_tracer orig_q this query id n in
   result outer = Abrupt e
   /\ exists name,
        events outer
        = (EvStart n name (query_options (CompiledQuery.sql query))
           :: events (orig_q this query id (S n))
           ++ status_code_events n err ++ exception_events n err
           ++ [EvEnd n])%list).
Proof.
  intros Hwt Hins Hconv. unfold inspected in Hins.
  assert (Hann : failure_events n err
                 = (status_code_events n err ++ exception_events n err)%list).
  { unfold failure_events, status_events.
    rewrite Hins, Hconv. now rewrite app_nil_r. }
  assert (Hre : forall A, @rethrown A err = Abrupt e).
  { intros A. unfold rethrown. now rewrite Hins, Hconv. }
  split; intros Hthrow outer; unfold outer.
  - rewrite execute_wrapper_outcome; simpl.
    rewrite Hthrow, Hann, Hre. split; [reflexivity|].
    now rewrite <- !app_assoc.
  - rewrite (executeQuery_wrapper_outcome _ _ _ _ _ _
               (summarizeQuery_span_name query Hwt)); simpl.
    rewrite Hthrow, Hann, Hre. split; [reflexivity|].
    eexists. now rewrite <- !app_assoc.
Qed.

Lemma conversion_failure_replaces_thrown_value_witness :
  well_typed (CompiledQuery.query Sample.select_users) = true
  /\ inspected Run.coded_bare_object
  /\ js_String Run.coded_bare_object = Abrupt Run.conversion_error
  /\ result (Run.execute_throws Run.coded_bare_object Run.this Run.cb 1)
     = Abrupt Run.coded_bare_object
  /\ result
       (execute_wrapper otel_tracer (Run.execute_throws Run.coded_bare_object)
          Run.this Run.cb 0)
     = Abrupt Run.conversion_error
  /\ events
       (execute_wrapper otel_tracer (Run.execute_throws Run.coded_bare_object)
          Run.this Run.cb 0)
     = [EvStart 0 "TRANSACTION" transaction_options;
        EvSetAttribute 0 "db.response.status_code" (AttrString "23505");
        EvEnd 0].
Proof.
  split; [reflexivity|]. split; [reflexivity|]. split; [reflexivity|].
  split; [reflexivity|].
  exact (proj1 (conversion_failure_replaces_thrown_value
                  (Run.execute_throws Run.coded_bare_object)
                  (Run.executeQuery_throws Run.coded_bare_object)
                  Run.this Run.cb Sample.select_users Run.id 0
                  Run.coded_bare_object Run.conversion_error
                  eq_refl eq_refl eq_refl)
           eq_refl).
Defined.

(** X3.  On a delete node without [from] the query wrapper fails
    before it traces anything: whatever the original operation is, the
    call throws the summarizer's [TypeError], no span is started and
    the original operation does not run. *)
Theorem query_wrapper_throws_before_span_on_delete_without_from
    (orig : ExecuteQueryFn) (this : JsValue) (q : RootOperationNode.t)
    (sql : string) (id : QueryId.t) (n : nat) :
  RootOperationNode.kind q = "DeleteQueryNode" ->
  RootOperationNode.from q = None ->
  executeQuery_wrapper otel_tracer orig this (CompiledQuery.mk q sql) id n
  = mkOutcome (Abrupt (TypeError_undefined "froms")) [] n.
Proof.
  intros Hk Hf.
  apply executeQuery_wrapper_summarizer_throws.
  now apply summarizeQuery_delete_without_from.
Qed.

Lemma query_wrapper_throws_before_span_on_delete_without_from_witness :
  RootOperationNode.kind (CompiledQuery.query (Sample.delete None))
  = "DeleteQueryNode"
  /\ events
       (executeQuery_wrapper otel_tracer
          (Run.executeQuery_returns Run.three_rows)
          Run.this (Sample.delete None) Run.id 5)
     = [].
Proof.
  split; [reflexivity|].
  exact (f_equal events
           (query_wrapper_throws_before_span_on_delete_without_from
              (Run.executeQuery_returns Run.three_rows) Run.this
              (CompiledQuery.query (Sample.delete None)) "delete from ..."
              Run.id 5 eq_refl eq_refl)).
Defined.

(** X4.  The wrapper records an exception on its span only when the
    original operation has thrown an error object, and then records
    that very object. *)
Theorem exception_recorded_only_for_thrown_error
    (orig_t : ExecuteFn) (orig_q : ExecuteQueryFn) (this : JsValue)
    (cb : Callback) (query : CompiledQuery.t) (id : QueryId.t) (n : nat) :
  well_typed (CompiledQuery.query query) = true ->
  let inner_t := orig_t this cb (S n) in
  let inner_q := orig_q this query id (S n) in
  exists name own_t own_q,
    events (execute_wrapper otel_tracer orig_t this cb n)
    = (EvStart n "TRANSACTION" transaction_options
       :: events inner_t ++ own_t ++ [EvEnd n])%list
    /\ events (executeQuery_wrapper otel_tracer orig_q this query id n)
       = (EvStart n name (query_options (CompiledQuery.sql query))
          :: events inner_q ++ own_q ++ [EvEnd n])%list
    /\ (forall span e,
          In (EvRecordException span e) own_t ->
          span = n /\ result inner_t = Abrupt e /\ Error_isError e = true)
    /\ (forall span e,
          In (EvRecordException span e) own_q ->
          span = n /\ result inner_q = Abrupt e /\ Error_isError e = true).
Proof.
  intros Hwt inner_t inner_q.
  rewrite execute_wrapper_events, (executeQuery_wrapper_events _ _ _ _ _ Hwt).
  fold inner_t inner_q.
  do 3 eexists.
  split; [reflexivity|]. split; [reflexivity|].
  assert (Hexc : forall span e err,
            In (EvRecordException span e) (failure_events n err) ->
            span = n /\ err = e /\ Error_isError e = true).
  { intros span e err.
    unfold failure_events, status_code_events, exception_events, status_events.
    destruct (code_probe_error err); [simpl; tauto|].
    rewrite !in_app_iff. intros [H|[H|H]].
    - destruct (code_field err); [|contradiction].
      destruct H as [[=]|[]].
    - destruct (Error_isError err) eqn:Herr; [|contradiction].
      destruct H as [[= <- <-]|[]]. auto.
    - destruct (js_String err); [|contradiction].
      destruct H as [[=]|[]]. }
  split; intros span e H.
  - destruct (result inner_t) as [res|err]; simpl in H; [contradiction|].
    apply Hexc in H as (-> & -> & He). auto.
  - destruct (result inner_q) as [res|err]; simpl in H.
    + destruct H as [[=]|[]].
    + apply Hexc in H as (-> & -> & He). auto.
Qed.

Lemma exception_recorded_only_for_thrown_error_witness :
  well_typed (CompiledQuery.query Sample.select_users) = true
  /\ ~ In (EvRecordException 0 (JsString "boom"))
         (events
            (execute_wrapper otel_tracer (Run.execute_throws (JsString "boom"))
               Run.this Run.cb 0)).
Proof.
  split; [reflexivity|].
  destruct (exception_recorded_only_for_thrown_error
              (Run.execute_throws (JsString "boom"))
              (Run.executeQuery_returns Run.three_rows)
              Run.this Run.cb Sample.select_users Run.id 0 eq_refl)
    as (name & own_t & own_q & Ht & _ & Hexc & _).
  rewrite Ht. simpl.
  intros [H|H]; [discriminate H|].
  apply in_app_iff in H as [H|[H|[]]]; [|discriminate H].
  destruct (Hexc 0 (JsString "boom") H) as (_ & _ & He).
  discriminate He.
Defined.

(** X5.  The attribute [db.response.returned_rows] is the query
    wrapper's alone and belongs to success: the transaction wrapper
    never sets it, and the query wrapper sets it only when the original
    query has returned, to the number of rows of its result. *)
Theorem returned_rows_only_on_query_success
    (orig_t : ExecuteFn) (orig_q : ExecuteQueryFn) (this : JsValue)
    (cb : Callback) (query : CompiledQuery.t) (id : QueryId.t) (n : nat) :
  well_typed (CompiledQuery.query query) = true ->
  let inner_t := orig_t this cb (S n) in
  let inner_q := orig_q this query id (S n) in
  exists name own_t own_q,
    events (execute_wrapper otel_tracer orig_t this cb n)
    = (EvStart n "TRANSACTION" transaction_options
       :: events inner_t ++ own_t ++ [EvEnd n])%list
    /\ events (executeQuery_wrapper otel_tracer orig_q this query id n)
       = (EvStart n name (query_options (CompiledQuery.sql query))
          :: events inner_q ++ own_q ++ [EvEnd n])%list
    /\ (forall span v,
          ~ In (EvSetAttribute span "db.response.returned_rows" v) own_t)
    /\ (forall span v,
          In (EvSetAttribute span "db.response.returned_rows" v) own_q ->
          span = n
          /\ exists res,
               result inner_q = Normal res
               /\ v = AttrNumber (length (QueryResult.rows res))).
Proof.
  intros Hwt inner_t inner_q.
  rewrite execute_wrapper_events, (executeQuery_wrapper_events _ _ _ _ _ Hwt).
  fold inner_t inner_q.
  do 3 eexists.
  split; [reflexivity|]. split; [reflexivity|].
  assert (Hrows : forall span v err,
            ~ In (EvSetAttribute span "db.response.returned_rows" v)
                (failure_events n err)).
  { intros span v err.
    unfold failure_events, status_code_events, exception_events, status_events.
    destruct (code_probe_error err); [simpl; tauto|].
    rewrite !in_app_iff. intros [H|[H|H]].
    - destruct (code_field err); [|contradiction].
      destruct H as [[=]|[]].
    - destruct (Error_isError err); [|contradiction].
      destruct H as [[=]|[]].
    - destruct (js_String err); [|contradiction].
      destruct H as [[=]|[]]. }
  split; intros span v.
  - destruct (result inner_t) as [res|err]; simpl; [tauto | apply Hrows].
  - destruct (result inner_q) as [res|err]; simpl; intros H.
    + destruct H as [[= <- <-]|[]]. split; [reflexivity|].
      exists res. split; reflexivity.
    + now apply Hrows in H.
Qed.

Lemma returned_rows_only_on_query_success_witness :
  well_typed (CompiledQuery.query Sample.select_users) = true
  /\ ~ In (EvSetAttribute 0 "db.response.returned_rows" (AttrNumber 0))
         (events
            (execute_wrapper otel_tracer (Run.execute_returns JsNull)
               Run.this Run.cb 0)).
Proof.
  split; [reflexivity|].
  destruct (returned_rows_only_on_query_success
              (Run.execute_returns JsNull)
              (Run.executeQuery_returns Run.three_rows)
              Run.this Run.cb Sample.select_users Run.id 0 eq_refl)
    as (name & own_t & own_q & Ht & _ & Hrows & _).
  rewrite Ht. simpl.
  intros [H|H]; [discriminate H|].
  apply in_app_iff in H as [H|[H|[]]]; [|discriminate H].
  exact (Hrows 0 (AttrNumber 0) H).
Defined.

(** ** Repeated installation *)

Lemma execute_wrapper_ended (orig : ExecuteFn) (this : JsValue)
    (cb : Callback) (n : nat) :
  ended (events (execute_wrapper otel_tracer orig this cb n))
  = 1 + ended (events (orig this cb (S n))).
Proof.
  rewrite execute_wrapper_events.
  apply (bracket_counts n _ _ (events (orig this cb (S n)))).
  apply execute_annotations_annotate.
Qed.

Lemma executeQuery_wrapper_counts (orig : ExecuteQueryFn) (this : JsValue)
    (query : CompiledQuery.t) (id : QueryId.t) (n : nat) :
  well_typed (CompiledQuery.query query) = true ->
  started (events (executeQuery_wrapper otel_tracer orig this query id n))
  = 1 + started (events (orig this query id (S n)))
  /\ ended (events (executeQuery_wrapper otel_tracer orig this query id n))
     = 1 + ended (events (orig this query id (S n))).
Proof.
  intros Hwt. rewrite (executeQuery_wrapper_events _ _ _ _ _ Hwt).
  apply (bracket_counts n _ _ (events (orig this query id (S n)))).
  apply executeQuery_annotations_annotate.
Qed.

(** [k] calls of [setupInstrumentation] in a row. *)
Definition install_times (k : nat) (lib : Prototypes) : Prototypes :=
  Nat.iter k (setupInstrumentation otel_tracer) lib.

Lemma install_times_S (k : nat) (lib : Prototypes) :
  install_times (S k) lib
  = setupInstrumentation otel_tracer (install_times k lib).
Proof. reflexivity. Qed.

(** The trace of a transaction after [k] installs: the [k] spans are
    started one after the other, the original operation runs, and what
    follows only annotates the spans and ends them, innermost first. *)
Lemma installed_execute_trace (k : nat) (lib : Prototypes) (this : JsValue)
    (cb : Callback) (n : nat) :
  exists closing,
    events (TransactionBuilder_execute (install_times k lib) this cb n)
    = (map (fun i => EvStart i "TRANSACTION" transaction_options) (seq n k)
       ++ events (TransactionBuilder_execute lib this cb (k + n))
       ++ closing)%list
    /\ filter is_start closing = []
    /\ filter is_end closing = map EvEnd (rev (seq n k)).
Proof.
  revert n. induction k as [|k IH]; intros n.
  - exists []. simpl. now rewrite app_nil_r.
  - destruct (IH (S n)) as (closing & Hev & Hs & He).
    rewrite install_times_S.
    cbn [setupInstrumentation TransactionBuilder_execute].
    rewrite execute_wrapper_events, Hev.
    pose proof (execute_annotations_annotate n
                  (result (TransactionBuilder_execute (install_times k lib)
                             this cb (S n)))) as Hann.
    exists (closing
            ++ execute_annotations n
                 (result (TransactionBuilder_execute (install_times k lib)
                            this cb (S n)))
            ++ [EvEnd n])%list.
    replace (S k + n) with (k + S n) by lia.
    split; [simpl; rewrite <- !app_assoc; reflexivity|].
    rewrite !filter_app, Hs, He.
    rewrite (annotations_not_started n _ Hann).
    rewrite (annotations_not_ended n _ Hann).
    split; [reflexivity|].
    change (seq n (S k)) with (n :: seq (S n) k).
    simpl rev. rewrite map_app. reflexivity.
Qed.

Lemma installed_executeQuery_trace (k : nat) (lib : Prototypes)
    (this : JsValue) (query : CompiledQuery.t) (id : QueryId.t) (n : nat) :
  well_typed (CompiledQuery.query query) = true ->
  exists closing,
    events (DefaultQueryExecutor_executeQuery (install_times k lib)
              this query id n)
    = (map (fun i => EvStart i (summary_of (CompiledQuery.query query))
                       (query_options (CompiledQuery.sql query)))
         (seq n k)
       ++ events (DefaultQueryExecutor_executeQuery lib this query id (k + n))
       ++ closing)%list
    /\ filter is_start closing = []
    /\ filter is_end closing = map EvEnd (rev (seq n k)).
Proof.
  intros Hwt. revert n. induction k as [|k IH]; intros n.
  - exists []. simpl. now rewrite app_nil_r.
  - destruct (IH (S n)) as (closing & Hev & Hs & He).
    rewrite install_times_S.
    cbn [setupInstrumentation DefaultQueryExecutor_executeQuery].
    rewrite (executeQuery_wrapper_events _ _ _ _ _ Hwt), Hev.
    pose proof (executeQuery_annotations_annotate n
                  (result (DefaultQueryExecutor_executeQuery
                             (install_times k lib) this query id (S n))))
      as Hann.
    exists (closing
            ++ executeQuery_annotations n
                 (result (DefaultQueryExecutor_executeQuery
                            (install_times k lib) this query id (S n)))
            ++ [EvEnd n])%list.
    replace (S k + n) with (k + S n) by lia.
    split; [simpl; rewrite <- !app_assoc; reflexivity|].
    rewrite !filter_app, Hs, He.
    rewrite (annotations_not_started n _ Hann).
    rewrite (annotations_not_ended n _ Hann).
    split; [reflexivity|].
    change (seq n (S k)) with (n :: seq (S n) k).
    simpl rev. rewrite map_app. reflexivity.
Qed.

Lemma filter_is_start_starts (name : string) (options : SpanOptions)
    (ids : list nat) :
  filter is_start (map (fun i => EvStart i name options) ids)
  = map (fun i => EvStart i name options) ids.
Proof.
  induction ids as [|i ids IH]; simpl; [reflexivity | now rewrite IH].
Qed.

Lemma filter_is_end_starts (name : string) (options : SpanOptions)
    (ids : list nat) :
  filter is_end (map (fun i => EvStart i name options) ids) = [].
Proof.
  induction ids as [|i ids IH]; simpl; [reflexivity | exact IH].
Qed.

(** X6.  Every call of [setupInstrumentation] adds one layer: after [k]
    installs an intercepted call starts and ends exactly [k] spans more
    than the original operation, which runs inside all of them.  The
    trace begins with the starts of the [k] spans, one after the other;
    then come the events of the original operation; and what follows
    starts no span and ends the [k] spans, innermost first. *)
Theorem every_install_adds_one_span
    (k : nat) (lib : Prototypes) (this : JsValue) (cb : Callback)
    (query : CompiledQuery.t) (id : QueryId.t) (n : nat) :
  well_typed (CompiledQuery.query query) = true ->
  let installed := install_times k lib in
  let inner_t := TransactionBuilder_execute lib this cb (k + n) in
  let inner_q := DefaultQueryExecutor_executeQuery lib this query id (k + n) in
  (started (events (TransactionBuilder_execute installed this cb n))
   = k + started (events inner_t)
   /\ ended (events (TransactionBuilder_execute installed this cb n))
      = k + ended (events inner_t)
   /\ started (events (DefaultQueryExecutor_executeQuery installed this query id n))
      = k + started (events inner_q)
   /\ ended (events (DefaultQueryExecutor_executeQuery installed this query id n))
      = k + ended (events inner_q))
  /\ (exists closing,
        events (TransactionBuilder_execute installed this cb n)
        = (map (fun i => EvStart i "TRANSACTION" transaction_options) (seq n k)
           ++ events inner_t ++ closing)%list
        /\ filter is_start closing = []
        /\ filter is_end closing = map EvEnd (rev (seq n k)))
  /\ (exists name closing,
        events (DefaultQueryExecutor_executeQuery installed this query id n)
        = (map (fun i => EvStart i name
                           (query_options (CompiledQuery.sql query)))
             (seq n k)
           ++ events inner_q ++ closing)%list
        /\ filter is_start closing = []
        /\ filter is_end closing = map EvEnd (rev (seq n k))).
Proof.
  intros Hwt installed inner_t inner_q.
  destruct (installed_execute_trace k lib this cb n)
    as (closing_t & Ht & Hst & Het).
  destruct (installed_executeQuery_trace k lib this query id n Hwt)
    as (closing_q & Hq & Hsq & Heq).
  fold installed inner_t in Ht. fold installed inner_q in Hq.
  split; [|split].
  2: { exists closing_t. auto. }
  2: { exists (summary_of (CompiledQuery.query query)), closing_q. auto. }
  unfold started, ended. rewrite Ht, Hq.
  rewrite !filter_app, !filter_is_start_starts, !filter_is_end_starts.
  rewrite Hst, Het, Hsq, Heq.
  rewrite !length_app, !length_map, length_rev, !length_seq.
  simpl. repeat split; lia.
Qed.

Lemma every_install_adds_one_span_witness :
  well_typed (CompiledQuery.query Sample.select_users) = true
  /\ started
       (events
          (DefaultQueryExecutor_executeQuery (install_times 3 Run.library)
             Run.this Sample.select_users Run.id 0))
     = 3.
Proof.
  split; [reflexivity|].
  exact (proj1 (proj2 (proj2 (proj1
           (every_install_adds_one_span 3 Run.library Run.this Run.cb
              Sample.select_users Run.id 0 eq_refl))))).
Defined.

Example run_after_three_installs :
  events
    (TransactionBuilder_execute
       (install_times 3
          {| TransactionBuilder_execute := Run.execute_throws (JsString "boom");
             DefaultQueryExecutor_executeQuery :=
               Run.executeQuery_returns Run.three_rows |})
       Run.this Run.cb 0)
  = [EvStart 0 "TRANSACTION" transaction_options;
     EvStart 1 "TRANSACTION" transaction_options;
     EvStart 2 "TRANSACTION" transaction_options;
     EvSetStatus 2 (error_status "boom"); EvEnd 2;
     EvSetStatus 1 (error_status "boom"); EvEnd 1;
     EvSetStatus 0 (error_status "boom"); EvEnd 0].
Proof. reflexivity. Qed.

(** ** Nesting of spans *)

(** The spans that are open after a trace, innermost first, when the
    trace keeps the discipline of nested spans: a span that ends is the
    innermost open one, and only an open span is annotated.  [None]
    when the trace breaks the discipline. *)
Fixpoint open_spans_after (open : list nat) (evs : list SpanEvent)
  : option (list nat) :=
  match evs with
  | [] => Some open
  | EvStart id _ _ :: rest => open_spans_after (id :: open) rest
  | EvEnd id :: rest =>
      match open with
      | innermost :: outer =>
          if (innermost =? id)%nat then open_spans_after outer rest else None
      | [] => None
      end
  | EvSetAttribute id _ _ :: rest
  | EvRecordException id _ :: rest
  | EvSetStatus id _ :: rest =>
      if existsb (Nat.eqb id) open then open_spans_after open rest else None
  end.

Lemma open_spans_after_app (open : list nat) (evs1 evs2 : list SpanEvent) :
  open_spans_after open (evs1 ++ evs2)
  = match open_spans_after open evs1 with
    | Some open' => open_spans_after open' evs2
    | None => None
    end.
Proof.
  revert open.
  induction evs1 as [|e evs1 IH]; intros open; simpl; [reflexivity|].
  destruct e as [id name options | id key value | id exc | id status | id];
    simpl; try apply IH.
  - destruct (existsb (Nat.eqb id) open); [apply IH | reflexivity].
  - destruct (existsb (Nat.eqb id) open); [apply IH | reflexivity].
  - destruct (existsb (Nat.eqb id) open); [apply IH | reflexivity].
  - destruct open as [|innermost outer]; [reflexivity|].
    destruct (innermost =? id)%nat; [apply IH | reflexivity].
Qed.

Lemma annotations_keep_open_spans (n : nat) (open : list nat)
    (own : list SpanEvent) :
  forallb (annotates n) own = true ->
  open_spans_after (n :: open) own = Some (n :: open).
Proof.
  induction own as [|e own IH]; simpl; [reflexivity|].
  intros H. apply andb_true_iff in H as [He Hown].
  destruct e as [id name options | id key value | id exc | id status | id];
    simpl in He; try discriminate;
    apply Nat.eqb_eq in He; subst id; simpl;
    rewrite Nat.eqb_refl; simpl; auto.
Qed.

Lemma bracket_keeps_nesting (n : nat) (name : string) (options : SpanOptions)
    (open : list nat) (inner own : list SpanEvent) :
  open_spans_after (n :: open) inner = Some (n :: open) ->
  forallb (annotates n) own = true ->
  open_spans_after open
    (EvStart n name options :: inner ++ own ++ [EvEnd n])%list
  = Some open.
Proof.
  intros Hinner Hown. simpl.
  rewrite open_spans_after_app, Hinner.
  rewrite open_spans_after_app, (annotations_keep_open_spans n open own Hown).
  simpl. now rewrite Nat.eqb_refl.
Qed.

(** X7.  The wrappers keep spans nested.  If the original operation,
    run while the wrapper's span is open, leaves its own spans properly
    nested and closed, then so does the wrapped call: its span is
    opened first and ended last, and the wrapper annotates it only
    while it is open, never after its end. *)
Theorem wrappers_keep_spans_nested
    (orig_t : ExecuteFn) (orig_q : ExecuteQueryFn) (this : JsValue)
    (cb : Callback) (query : CompiledQuery.t) (id : QueryId.t) (n : nat)
    (open : list nat) :
  well_typed (CompiledQuery.query query) = true ->
  (open_spans_after (n :: open) (events (orig_t this cb (S n)))
   = Some (n :: open) ->
   open_spans_after open (events (execute_wrapper otel_tracer orig_t this cb n))
   = Some open)
  /\
  (open_spans_after (n :: open) (events (orig_q this query id (S n)))
   = Some (n :: open) ->
   open_spans_after open
     (events (executeQuery_wrapper otel_tracer orig_q this query id n))
   = Some open).
Proof.
  intros Hwt. split; intros Hinner.
  - rewrite execute_wrapper_events.
    apply bracket_keeps_nesting; [exact Hinner|].
    apply execute_annotations_annotate.
  - rewrite (executeQuery_wrapper_events _ _ _ _ _ Hwt).
    apply bracket_keeps_nesting; [exact Hinner|].
    apply executeQuery_annotations_annotate.
Qed.

Lemma wrappers_keep_spans_nested_witness :
  well_typed (CompiledQuery.query Sample.select_users) = true
  /\ open_spans_after [0]
       (events (Run.executeQuery_throws Run.unique_violation
                  Run.this Sample.select_users Run.id 1))
     = Some [0]
  /\ open_spans_after []
       (events
          (executeQuery_wrapper otel_tracer
             (Run.executeQuery_throws Run.unique_violation)
             Run.this Sample.select_users Run.id 0))
     = Some [].
Proof.
  split; [reflexivity|]. split; [reflexivity|].
  exact (proj2 (wrappers_keep_spans_nested
                  (Run.execute_returns JsNull)
                  (Run.executeQuery_throws Run.unique_violation)
                  Run.this Run.cb Sample.select_users Run.id 0 [] eq_refl)
           eq_refl).
Defined.

(** A transaction whose callback issues two wrapped queries: the trace
    is nested and closed. *)
Example nested_trace_of_transaction_with_queries :
  let lib := setupInstrumentation otel_tracer Run.library in
  open_spans_after []
    (events
       (TransactionBuilder_execute lib Run.this
          (fun trx =>
             DefaultQueryExecutor_executeQuery lib trx
               Sample.select_users Run.id ;;
             DefaultQueryExecutor_executeQuery lib trx
               Sample.select_users Run.id ;;
             ret JsUndefined)
          0))
  = Some [].
Proof. reflexivity. Qed.

(** ** Names of tables *)

Lemma js_Boolean_nonempty (s : string) : js_Boolean s = true <-> s <> "".
Proof.
  unfold js_Boolean. rewrite negb_true_iff. apply String.eqb_neq.
Qed.

(** X8.  The names [getTableNames] returns are exactly the non-empty
    names of the plain table references in the list: a node of another
    kind (an aliased table, a join, raw SQL) contributes nothing, and
    no returned name is empty. *)
Theorem getTableNames_are_names_of_plain_tables
    (nodes : list OperationNode) (s : string) :
  In s (getTableNames nodes)
  <-> s <> "" /\ exists t, In (OpTableNode t) nodes /\ getTableName t = s.
Proof.
  unfold getTableNames.
  rewrite filter_In, in_map_iff, js_Boolean_nonempty.
  split.
  - intros [[node [Hname Hin]] Hs]. split; [exact Hs|].
    destruct node as [t| | | ]; try (now subst s).
    now exists t.
  - intros [Hs [t [Hin Hname]]]. split; [|exact Hs].
    now exists (OpTableNode t).
Qed.

(** The nodes among which there is no plain table reference. *)
Definition no_plain_table (nodes : list OperationNode) : bool :=
  forallb (fun node => negb (TableNode_is node)) nodes.

Lemma getTableNames_no_plain_table (nodes : list OperationNode) :
  no_plain_table nodes = true -> getTableNames nodes = [].
Proof.
  unfold no_plain_table, getTableNames.
  induction nodes as [|node nodes IH]; simpl; [reflexivity|].
  intros H. apply andb_true_iff in H as [Hnode Hnodes].
  destruct node; simpl in *; try discriminate; auto.
Qed.

(** X9.  The select case tests that the list of sources is not empty,
    not that a name is left: over sources none of which is a plain
    table reference (aliased tables, say) the name is ["SELECT FROM "]
    with nothing after it, and joins none of which is a plain table
    reference add [" JOIN "] with nothing after it. *)
Theorem select_over_sources_that_are_not_plain_tables
    (q : RootOperationNode.t) (sql : string) (froms : list OperationNode) :
  RootOperationNode.kind q = "SelectQueryNode" ->
  RootOperationNode.from q = Some (FromNode.mk froms) ->
  froms <> [] ->
  no_plain_table froms = true ->
  (RootOperationNode.joins q = None ->
   summarizeQuery (CompiledQuery.mk q sql) = Normal "SELECT FROM ")
  /\ (forall joins,
        RootOperationNode.joins q = Some joins ->
        joins <> [] ->
        no_plain_table joins = true ->
        summarizeQuery (CompiledQuery.mk q sql) = Normal "SELECT FROM  JOIN ").
Proof.
  intros Hk Hf Hne Hfroms.
  unfold summarizeQuery; simpl. rewrite Hk, Hf; simpl.
  destruct froms as [|f froms]; [contradiction|].
  rewrite (getTableNames_no_plain_table _ Hfroms).
  split.
  - intros ->. reflexivity.
  - intros joins -> Hj Hjoins.
    destruct joins as [|j joins]; [contradiction|].
    unfold append_joins.
    rewrite (getTableNames_no_plain_table _ Hjoins). reflexivity.
Qed.

Lemma select_over_sources_that_are_not_plain_tables_witness :
  no_plain_table
    [OpAliasNode (OpTableNode (Sample.table None "users")) "u"] = true
  /\ summarizeQuery
       (Sample.select_from
          [OpAliasNode (OpTableNode (Sample.table None "users")) "u"]
          (Some [OpJoinNode "InnerJoin"
                   (OpTableNode (Sample.table None "posts"))]))
     = Normal "SELECT FROM  JOIN ".
Proof.
  split; [reflexivity|].
  refine (proj2 (select_over_sources_that_are_not_plain_tables
                   (CompiledQuery.query
                      (Sample.select_from
                         [OpAliasNode (OpTableNode (Sample.table None "users")) "u"]
                         (Some [OpJoinNode "InnerJoin"
                                  (OpTableNode (Sample.table None "posts"))])))
                   "select * from ..."
                   [OpAliasNode (OpTableNode (Sample.table None "users")) "u"]
                   eq_refl eq_refl _ eq_refl)
            _ eq_refl _ eq_refl).
  - intros H. discriminate H.
  - intros H. discriminate H.
Defined.

(** ** Shape of the span names *)

(** The words a span name can begin with. *)
Definition keywords : list string :=
  [ "SELECT"; "INSERT"; "UPDATE"; "DELETE FROM "; "DDL Operation"; "MERGE";
    "REFRESH MATERIALIZED VIEW"; "RAW SQL" ].

Lemma prefix_append (p s : string) : String.prefix p (p ++ s) = true.
Proof.
  induction p as [|c p IH]; simpl.
  - destruct s; reflexivity.
  - destruct (Ascii.ascii_dec c c) as [_|Hc]; [exact IH | now elim Hc].
Qed.

Lemma prefix_nonempty (p s : string) :
  p <> "" -> String.prefix p s = true -> s <> "".
Proof.
  intros Hp Hpre ->. destruct p; [now elim Hp | discriminate Hpre].
Qed.

(** X10.  Whatever the tables, schemas and view names are, the name of
    a span begins with one of eight fixed words, the one of its kind of
    statement; in particular it is never empty. *)
Theorem span_name_begins_with_keyword (cq : CompiledQuery.t) :
  well_typed (CompiledQuery.query cq) = true ->
  exists name keyword,
    summarizeQuery cq = Normal name
    /\ In keyword keywords
    /\ String.prefix keyword name = true
    /\ name <> "".
Proof.
  intros Hwt.
  rewrite (summarizeQuery_span_name cq Hwt).
  assert (H : exists keyword rest,
            In keyword keywords /\ keyword <> ""
            /\ summary_of (CompiledQuery.query cq) = keyword ++ rest).
  { unfold summary_of, Spec.span_name_with, keywords.
    destruct (Spec.node_kind (RootOperationNode.kind (CompiledQuery.query cq))).
    - exists "SELECT".
      destruct (Spec.source_tables
                  (RootOperationNode.from (CompiledQuery.query cq))).
      + eexists. simpl. intuition (try discriminate; reflexivity).
      + exists (" FROM "
                ++ Spec.table_list (o :: l)
                ++ Spec.join_suffix
                     (RootOperationNode.joins (CompiledQuery.query cq))).
        simpl. intuition (try discriminate).
    - exists "INSERT".
      destruct (RootOperationNode.into (CompiledQuery.query cq)).
      + exists (" INTO " ++ Spec.table_name t).
        simpl. intuition (try discriminate).
      + exists "". simpl. intuition (try discriminate).
    - exists "UPDATE".
      destruct (RootOperationNode.table (CompiledQuery.query cq))
        as [[t| | | ]|].
      1: exists (" " ++ Spec.table_name t
                 ++ Spec.join_suffix
                      (RootOperationNode.joins (CompiledQuery.query cq))).
      2-5: exists (Spec.join_suffix
                     (RootOperationNode.joins (CompiledQuery.query cq))).
      all: simpl; rewrite ?append_assoc; intuition (try discriminate).
    - exists "DELETE FROM ". eexists.
      simpl. intuition (try discriminate; reflexivity).
    - exists "DDL Operation", "". simpl. intuition (try discriminate).
    - exists "MERGE", "". simpl. intuition (try discriminate).
    - exists "REFRESH MATERIALIZED VIEW". eexists.
      simpl. intuition (try discriminate; reflexivity).
    - exists "RAW SQL", "". simpl. intuition (try discriminate). }
  destruct H as (keyword & rest & Hin & Hne & ->).
  exists (keyword ++ rest), keyword.
  split; [reflexivity|]. split; [exact Hin|].
  split; [apply prefix_append|].
  apply (prefix_nonempty keyword); [exact Hne | apply prefix_append].
Qed.

Lemma span_name_begins_with_keyword_witness :
  well_typed (CompiledQuery.query (Sample.refresh (Some (Sample.view None "mv_totals")) None))
  = true
  /\ exists name keyword,
       summarizeQuery (Sample.refresh (Some (Sample.view None "mv_totals")) None) = Normal name
       /\ In keyword keywords
       /\ String.prefix keyword name = true
       /\ name <> "".
Proof.
  split; [reflexivity|].
  exact (span_name_begins_with_keyword
           (Sample.refresh (Some (Sample.view None "mv_totals")) None) eq_refl).
Defined.

(** X11.  An empty list of sources is treated differently by the two
    cases that read it: a select node is named ["SELECT"], as if it had
    no [from], while a delete node keeps its words and is named
    ["DELETE FROM "]; either name is followed by the joins. *)
Theorem empty_sources_of_select_and_delete
    (q : RootOperationNode.t) (sql : string) :
  RootOperationNode.from q = Some (FromNode.mk []) ->
  (RootOperationNode.kind q = "SelectQueryNode" ->
   summarizeQuery (CompiledQuery.mk q sql)
   = Normal ("SELECT" ++ Spec.join_suffix (RootOperationNode.joins q)))
  /\ (RootOperationNode.kind q = "DeleteQueryNode" ->
      summarizeQuery (CompiledQuery.mk q sql)
      = Normal ("DELETE FROM " ++ Spec.join_suffix (RootOperationNode.joins q))).
Proof.
  intros Hf. split; intros Hk.
  - unfold summarizeQuery; simpl. rewrite Hk, Hf; simpl.
    now rewrite append_joins_join_suffix.
  - unfold summarizeQuery; simpl. rewrite Hk, Hf; simpl.
    now rewrite append_joins_join_suffix.
Qed.

Lemma empty_sources_of_select_and_delete_witness :
  RootOperationNode.from
    (CompiledQuery.query (Sample.delete (Some (FromNode.mk []))))
  = Some (FromNode.mk [])
  /\ summarizeQuery (Sample.delete (Some (FromNode.mk [])))
     = Normal "DELETE FROM ".
Proof.
  split; [reflexivity|].
  exact (proj2 (empty_sources_of_select_and_delete
                  (CompiledQuery.query (Sample.delete (Some (FromNode.mk []))))
                  "delete from ..." eq_refl)
           eq_refl).
Defined.

(** ** Outcomes through the wrappers *)

Definition returns {A : Type} (o : Outcome A) : bool :=
  match result o with
  | Normal _ => true
  | Abrupt _ => false
  end.

(** X12.  The wrappers neither swallow a failure nor invent one: the
    wrapped call returns exactly when the original operation returns,
    and throws exactly when it throws, whatever the thrown value is. *)
Theorem wrappers_return_exactly_when_original_returns
    (orig_t : ExecuteFn) (orig_q : ExecuteQueryFn) (this : JsValue)
    (cb : Callback) (query : CompiledQuery.t) (id : QueryId.t) (n : nat) :
  well_typed (CompiledQuery.query query) = true ->
  returns (execute_wrapper otel_tracer orig_t this cb n)
  = returns (orig_t this cb (S n))
  /\ returns (executeQuery_wrapper otel_tracer orig_q this query id n)
     = returns (orig_q this query id (S n)).
Proof.
  intros Hwt. unfold returns.
  rewrite execute_wrapper_outcome.
  rewrite (executeQuery_wrapper_outcome _ _ _ _ _ _
             (summarizeQuery_span_name query Hwt)).
  simpl. unfold rethrown. split.
  - destruct (result (orig_t this cb (S n))) as [res|err]; [reflexivity|].
    destruct (code_probe_error err), (js_String err); reflexivity.
  - destruct (result (orig_q this query id (S n))) as [res|err]; [reflexivity|].
    destruct (code_probe_error err), (js_String err); reflexivity.
Qed.

Lemma wrappers_return_exactly_when_original_returns_witness :
  well_typed (CompiledQuery.query Sample.select_users) = true
  /\ returns
       (execute_wrapper otel_tracer (Run.execute_throws Run.bare_object)
          Run.this Run.cb 0)
     = false.
Proof.
  split; [reflexivity|].
  exact (proj1 (wrappers_return_exactly_when_original_returns
                  (Run.execute_throws Run.bare_object)
                  (Run.executeQuery_returns Run.three_rows)
                  Run.this Run.cb Sample.select_users Run.id 0 eq_refl)).
Defined.

Lemma execute_wrapper_result (orig : ExecuteFn) (this : JsValue)
    (cb : Callback) (n : nat) :
  (forall err, result (orig this cb (S n)) = Abrupt err ->
               inspected err /\ exists msg, js_String err = Normal msg) ->
  result (execute_wrapper otel_tracer orig this cb n)
  = result (orig this cb (S n)).
Proof.
  intros Hconv. rewrite execute_wrapper_outcome; simpl.
  destruct (result (orig this cb (S n))) as [res|err]; [reflexivity|].
  destruct (Hconv err eq_refl) as [Hins [msg Hmsg]].
  unfold rethrown. unfold inspected in Hins. now rewrite Hins, Hmsg.
Qed.

(** X13.  However many times the instrumentation is installed, a
    transaction completes as the original one does: it returns the
    value the original returns, and throws the value the original
    throws when every layer's catch block inspects and converts that
    value without a further throw (the probe of its [code] completes
    and [String] converts it). *)
Theorem installed_transaction_completes_as_original
    (k : nat) (lib : Prototypes) (this : JsValue) (cb : Callback) (n : nat) :
  (forall err,
     result (TransactionBuilder_execute lib this cb (k + n)) = Abrupt err ->
     inspected err /\ exists msg, js_String err = Normal msg) ->
  result (TransactionBuilder_execute (install_times k lib) this cb n)
  = result (TransactionBuilder_execute lib this cb (k + n)).
Proof.
  revert n.
  induction k as [|k IH]; intros n Hconv; [reflexivity|].
  unfold install_times in *. simpl Nat.iter.
  unfold setupInstrumentation at 1. cbn [TransactionBuilder_execute].
  replace (S k + n) with (k + S n) in * by lia.
  rewrite execute_wrapper_result; rewrite (IH (S n) Hconv); [reflexivity|].
  exact Hconv.
Qed.

Lemma installed_transaction_completes_as_original_witness :
  result
    (TransactionBuilder_execute
       (install_times 2
          {| TransactionBuilder_execute :=
               Run.execute_throws Run.unique_violation;
             DefaultQueryExecutor_executeQuery :=
               Run.executeQuery_returns Run.three_rows |})
       Run.this Run.cb 0)
  = Abrupt Run.unique_violation.
Proof.
  apply (installed_transaction_completes_as_original 2
           {| TransactionBuilder_execute :=
                Run.execute_throws Run.unique_violation;
              DefaultQueryExecutor_executeQuery :=
                Run.executeQuery_returns Run.three_rows |}
           Run.this Run.cb 0).
  intros err H. injection H as <-.
  split; [reflexivity|]. eexists. reflexivity.
Defined.

(** ** A probe that throws *)

(** The catch block inspects a thrown value without a further throw
    exactly when its condition completes. *)
Lemma inspected_iff_condition_completes (err : JsValue) :
  inspected err <-> exists b, has_string_code err = Normal b.
Proof.
  unfold inspected.
  pose proof (has_string_code_cases err) as H.
  destruct (code_probe_error err) as [e|].
  - split; [discriminate|]. intros [b Hb]. rewrite H in Hb. discriminate Hb.
  - split; [intros _|reflexivity].
    destruct (code_field err) as [c|].
    + exists true. apply H.
    + exists false. exact H.
Qed.

Lemma condition_throws_probe_error (err e : JsValue) :
  has_string_code err = Abrupt e -> code_probe_error err = Some e.
Proof.
  intros He.
  pose proof (has_string_code_cases err) as H.
  destruct (code_probe_error err) as [e'|].
  - rewrite H in He. now injection He as ->.
  - destruct (code_field err) as [c|].
    + destruct H as [H _]. rewrite H in He. discriminate He.
    + rewrite H in He. discriminate He.
Qed.

(** An [Error] whose [code] is an accessor that throws: the probe of
    the code throws inside the catch block, before the exception is
    recorded and the status set; the span is ended and the caller
    observes what the getter threw. *)
Example run_query_throwing_error_with_throwing_code :
  js_String Run.error_with_throwing_code = Normal "Error: connection lost"
  /\ executeQuery_wrapper otel_tracer
       (Run.executeQuery_throws Run.error_with_throwing_code)
       Run.this Sample.select_users Run.id 0
     = mkOutcome (Abrupt Run.getter_error)
         [EvStart 0 "SELECT FROM public.users"
            (query_options "select * from ...");
          EvEnd 0]
         1.
Proof. split; reflexivity. Qed.

(** X15.  When the condition of the catch block throws (the [in] test
    or the read of [err.code]), the wrapper puts nothing on its span:
    no attribute, no exception and no status; the span is still ended,
    and the wrapped call throws what the probe threw instead of the
    original value. *)
Theorem probe_failure_replaces_thrown_value
    (orig_t : ExecuteFn) (orig_q : ExecuteQueryFn) (this : JsValue)
    (cb : Callback) (query : CompiledQuery.t) (id : QueryId.t) (n : nat)
    (err e : JsValue) :
  well_typed (CompiledQuery.query query) = true ->
  has_string_code err = Abrupt e ->
  (result (orig_t this cb (S n)) = Abrupt err ->
   let outer := execute_wrapper otel_tracer orig_t this cb n in
   result outer = Abrupt e
   /\ events outer
      = (EvStart n "TRANSACTION" transaction_options
         :: events (orig_t this cb (S n)) ++ [EvEnd n])%list)
  /\
  (result (orig_q this query id (S n)) = Abrupt err ->
   let outer := executeQuery_wrapper otel_tracer orig_q this query id n in
   result outer = Abrupt e
   /\ exists name,
        events outer
        = (EvStart n name (query_options (CompiledQuery.sql query))
           :: events (orig_q this query id (S n)) ++ [EvEnd n])%list).
Proof.
  intros Hwt Hprobe.
  apply condition_throws_probe_error in Hprobe.
  assert (Hann : failure_events n err = []).
  { unfold failure_events. now rewrite Hprobe. }
  assert (Hre : forall A, @rethrown A err = Abrupt e).
  { intros A. unfold rethrown. now rewrite Hprobe. }
  split; intros Hthrow outer; unfold outer.
  - rewrite execute_wrapper_outcome; simpl.
    rewrite Hthrow, Hann, Hre. split; reflexivity.
  - rewrite (executeQuery_wrapper_outcome _ _ _ _ _ _
               (summarizeQuery_span_name query Hwt)); simpl.
    rewrite Hthrow, Hann, Hre. split; [reflexivity|].
    eexists. reflexivity.
Qed.

Lemma probe_failure_replaces_thrown_value_witness :
  well_typed (CompiledQuery.query Sample.select_users) = true
  /\ has_string_code Run.error_with_throwing_code = Abrupt Run.getter_error
  /\ result (Run.execute_throws Run.error_with_throwing_code Run.this Run.cb 1)
     = Abrupt Run.error_with_throwing_code
  /\ result
       (execute_wrapper otel_tracer
          (Run.execute_throws Run.error_with_throwing_code)
          Run.this Run.cb 0)
     = Abrupt Run.getter_error
  /\ events
       (execute_wrapper otel_tracer
          (Run.execute_throws Run.error_with_throwing_code)
          Run.this Run.cb 0)
     = [EvStart 0 "TRANSACTION" transaction_options; EvEnd 0].
Proof.
  split; [reflexivity|]. split; [reflexivity|]. split; [reflexivity|].
  exact (proj1 (probe_failure_replaces_thrown_value
                  (Run.execute_throws Run.error_with_throwing_code)
                  (Run.executeQuery_throws Run.error_with_throwing_code)
                  Run.this Run.cb Sample.select_users Run.id 0
                  Run.error_with_throwing_code Run.getter_error
                  eq_refl eq_refl)
           eq_refl).
Defined.
